(** * mininet-topo.py: topology construction and host configuration

    A shallow embedding of [MyAutoTopo.build] and [simpleRun] from
    [mininet-topo.py].  The Mininet engine is opaque: every call the
    script makes on it ([addHost], [addLink], [net.start], [host.cmd], ...)
    is recorded as an event of a trace, in the order the script issues it.
    Python exceptions are the error results of a small monad, which also
    threads the only piece of the file system the script changes, the
    directory [PCAP_DIR]. *)

From stdpp Require Import base option list strings gmap.
From Stdlib Require Import Ascii.

(** ** Strings as Python uses them *)

(** [str.split(sep)] for a one-character separator: the fields between the
    occurrences of [sep]; empty fields are kept, and the empty string gives
    one empty field. *)
Fixpoint split (sep : ascii) (s : string) : list string :=
  match s with
  | EmptyString => [EmptyString]
  | String c s' =>
      if Ascii.eqb c sep then EmptyString :: split sep s'
      else match split sep s' with
           | [] => [String c EmptyString]
           | w :: ws => String c w :: ws
           end
  end.

(** [len(s) == 0] *)
Definition is_empty (s : string) : bool := Nat.eqb (String.length s) 0.

(** [str(b)] for a Python bool, as [print] shows it. *)
Definition py_bool (b : bool) : string := if b then "True" else "False".

Definition newline : ascii := "010"%char.
Definition space : ascii := " "%char.

(** ** Effects *)

(** [PCAP_DIR = "pcaps"] *)
Definition PCAP_DIR : string := "pcaps".

(** What the path [PCAP_DIR] is on disk. *)
Inductive dir_status := Absent | Directory | NotADirectory.

Inductive exn :=
| ValueError (expected got : nat)   (* tuple unpacking of the wrong length *)
| KeyError (key : string)           (* [all_nodes[k]], [net[k]] *)
| FileNotFoundError (path : string) (* [open(path)] *)
| FileExistsError (path : string).  (* [os.makedirs(path)] *)

(** Calls on the engine and on the operating system, in program order. *)
Inductive event :=
| Print (line : string)
| AddHost (name ip mac : string)
| AddLink (node1 node2 : string)
| MininetCreate
| NetStart
| DumpNodeConnections
| HostCmd (host cmd : string)
| Rmtree (path : string)
| Makedirs (path : string)
| StartCLI
| NetStop.

#[global] Instance event_eq_dec : EqDecision event.
Proof. solve_decision. Defined.

Inductive result (A : Type) :=
| Raised (e : exn)
| Returned (a : A).
Arguments Raised {A} e.
Arguments Returned {A} a.

Record run (A : Type) := Run {
  trace : list event;
  dir_after : dir_status;
  outcome : result A
}.
Arguments Run {A} _ _ _.
Arguments trace {A} _.
Arguments dir_after {A} _.
Arguments outcome {A} _.

(** A computation starts from the status of [PCAP_DIR] and gives the events
    it issued, the new status and a value or the exception that stopped it. *)
Definition M (A : Type) : Type := dir_status → run A.

Definition M_ret {A} (a : A) : M A := λ d, Run [] d (Returned a).

Definition M_bind {A B} (f : A → M B) (m : M A) : M B := λ d,
  let r := m d in
  match outcome r with
  | Raised e => Run (trace r) (dir_after r) (Raised e)
  | Returned a =>
      let r' := f a (dir_after r) in
      Run (trace r ++ trace r') (dir_after r') (outcome r')
  end.

#[global] Instance M_mret : MRet M := @M_ret.
#[global] Instance M_mbind : MBind M := @M_bind.

Definition emit (e : event) : M unit := λ d, Run [e] d (Returned tt).
Definition raise {A} (e : exn) : M A := λ d, Run [] d (Raised e).

(** [for x in xs: acc = body(acc, x)] *)
Fixpoint for_each {A B} (body : A → B → M A) (acc : A) (xs : list B) : M A :=
  match xs with
  | [] => mret acc
  | x :: xs' => acc' ← body acc x; for_each body acc' xs'
  end.

(** The input files (path to content) and the names the engine registers on
    its own besides the hosts of the topology (Mininet adds its controller to
    the table that [net[name]] reads). *)
Record env := Env {
  files : gmap string string;
  engine_nodes : gset string
}.

(** [with open(path) as fd: txt = fd.read().split("\n")] *)
Definition read_lines (E : env) (path : string) : M (list string) :=
  match files E !! path with
  | None => raise (FileNotFoundError path)
  | Some content => mret (split newline content)
  end.

(** Tuple unpacking of the fields of a line. *)
Definition unpack2 (fs : list string) : M (string * string) :=
  match fs with
  | [a; b] => mret (a, b)
  | _ => raise (ValueError 2 (length fs))
  end.

Definition unpack4 (fs : list string) : M (string * string * string * string) :=
  match fs with
  | [a; b; c; d] => mret (a, b, c, d)
  | _ => raise (ValueError 4 (length fs))
  end.

Definition unpack5 (fs : list string)
  : M (string * string * string * string * string) :=
  match fs with
  | [a; b; c; d; e] => mret (a, b, c, d, e)
  | _ => raise (ValueError 5 (length fs))
  end.

(** [os.path.exists(PCAP_DIR) and os.path.isdir(PCAP_DIR)] *)
Definition pcap_dir_is_dir : M bool := λ d,
  Run [] d (Returned (match d with Directory => true | _ => false end)).

(** [shutil.rmtree(PCAP_DIR)] *)
Definition rmtree_pcap_dir : M unit := λ _,
  Run [Rmtree PCAP_DIR] Absent (Returned tt).

(** [os.makedirs(PCAP_DIR)]: fails when the path exists. *)
Definition makedirs_pcap_dir : M unit := λ d,
  match d with
  | Absent => Run [Makedirs PCAP_DIR] Directory (Returned tt)
  | _ => Run [] d (Raised (FileExistsError PCAP_DIR))
  end.

(** ** [MyAutoTopo.build] *)

(** The graph of a [Topo]: host names and links. *)
Record Topo := MkTopo {
  topo_hosts : gset string;
  topo_links : list (string * string)
}.

Definition empty_topo : Topo := MkTopo ∅ [].

(** [self.addHost(name, ip=ip, mac=mac)] returns the name. *)
Definition addHost (self : Topo) (name ip mac : string) : M (Topo * string) :=
  emit (AddHost name ip mac);;
  mret (MkTopo ({[name]} ∪ topo_hosts self) (topo_links self), name).

(** [self.addLink(node1, node2)] *)
Definition addLink (self : Topo) (node1 node2 : string) : M Topo :=
  emit (AddLink node1 node2);;
  mret (MkTopo (topo_hosts self) (topo_links self ++ [(node1, node2)])).

(** [all_nodes[k]] *)
Definition getitem (d : gmap string string) (k : string) : M string :=
  match d !! k with
  | Some v => mret v
  | None => raise (KeyError k)
  end.

Record args := Args {
  loopbacks : string;
  links : string;
  paths : string;
  traces : bool;
  ipv4 : bool
}.

(** Lines 23-26: what the loop over the node file does with the fields of
    a line. *)
Definition register_node (st : Topo * gmap string string)
    (fields : string * string) : M (Topo * gmap string string) :=
  let '(self, all_nodes) := st in
  let '(node_id, loopback) := fields in
  '(self, node) ← addHost self node_id loopback ("00:00:00:00:00:" +:+ node_id);
  mret (self, <[node_id := node]> all_nodes).

(** Body of the loop over the node file (lines 20-26). *)
Definition build_node (st : Topo * gmap string string) (node_info : string)
  : M (Topo * gmap string string) :=
  if is_empty node_info then mret st
  else fields ← unpack2 (split space node_info); register_node st fields.

(** Lines 34-38: what the loop over the link file does with the fields of
    a line. *)
Definition connect (all_nodes : gmap string string)
    (st : Topo * gset (string * string))
    (fields : string * string * string * string * string)
  : M (Topo * gset (string * string)) :=
  let '(self, all_links) := st in
  let '(id1, id2, _, _, _) := fields in
  if bool_decide ((id1, id2) ∈ all_links) || bool_decide ((id2, id1) ∈ all_links)
  then mret (self, all_links)
  else
    n1 ← getitem all_nodes id1;
    n2 ← getitem all_nodes id2;
    self ← addLink self n1 n2;
    mret (self, {[(id1, id2)]} ∪ all_links).

(** Body of the loop over the link file (lines 31-38). *)
Definition build_link (all_nodes : gmap string string)
    (st : Topo * gset (string * string)) (link_info : string)
  : M (Topo * gset (string * string)) :=
  if is_empty link_info then mret st
  else fields ← unpack5 (split space link_info); connect all_nodes st fields.

Definition build (E : env) (self : Topo) (kwargs : args) : M Topo :=
  txt ← read_lines E (loopbacks kwargs);
  '(self, all_nodes) ← for_each build_node (self, ∅) txt;
  txt ← read_lines E (links kwargs);
  '(self, _) ← for_each (build_link all_nodes) (self, ∅) txt;
  mret self.

(** ** [simpleRun] *)

(** [Mininet(topo=topo, controller=OVSController)]: the table that
    [net[name]] reads holds the hosts of the topology and the engine's own
    nodes. *)
Definition Mininet (E : env) (topo : Topo) : M (gset string) :=
  emit MininetCreate;;
  mret (topo_hosts topo ∪ engine_nodes E).

(** [net[name]] *)
Definition net_getitem (net : gset string) (name : string) : M string :=
  if bool_decide (name ∈ net) then mret name else raise (KeyError name).

(** [net[name].cmd(cmd)] *)
Definition net_cmd (net : gset string) (name cmd : string) : M unit :=
  host ← net_getitem net name;
  emit (HostCmd host cmd).

(** The name of the interface, [{id1}-eth{itf}]. *)
Definition eth (id1 itf : string) : string := id1 +:+ "-eth" +:+ itf.

(** The file a capture is written to, [{id1}-{itf}.pcap]. *)
Definition pcap_file (id1 itf : string) : string :=
  id1 +:+ "-" +:+ itf +:+ ".pcap".

(** Lines 65-68: the command that assigns the loopback address. *)
Definition loopback_addr_cmd (ipv4 : bool) (loopback : string) : string :=
  if ipv4 then "ip addr add " +:+ loopback +:+ " dev lo"
  else "ip -6 addr add " +:+ loopback +:+ " dev lo".

(** Lines 98-101: the command that assigns the address of an interface. *)
Definition interface_addr_cmd (ipv4 : bool) (link id1 itf : string) : string :=
  if ipv4 then "ip addr add " +:+ link +:+ " dev " +:+ eth id1 itf
  else "ip -6 addr add " +:+ link +:+ " dev " +:+ eth id1 itf.

(** Line 111: the command that starts a capture in the background. *)
Definition capture_cmd (id1 itf : string) : string :=
  "tcpdump -i " +:+ eth id1 itf +:+ " -w " +:+ pcap_file id1 itf +:+ " &".

(** Lines 119-122: the command that installs a route. *)
Definition route_cmd (ipv4 : bool) (loopback link : string) : string :=
  if ipv4 then "ip route add " +:+ loopback +:+ " via " +:+ link
  else "ip -6 route add " +:+ loopback +:+ " via " +:+ link.

(** Lines 65-83: the commands for the fields of a line of the node file.
    The locals [nb_nodes] and [loopbacks] are written and never read. *)
Definition configure_loopback (net : gset string) (ipv4 : bool)
    (fields : string * string) : M unit :=
  let '(id1, loopback) := fields in
  let cmd := loopback_addr_cmd ipv4 loopback in
  emit (Print cmd);;
  net_cmd net id1 cmd;;
  net_cmd net id1 "sysctl net.ipv4.ip_forward=1";;
  net_cmd net id1 "sysctl net.ipv6.conf.all.forwarding=1";;
  net_cmd net id1 "sysctl net.ipv6.conf.all.mc_forwarding=1";;
  net_cmd net id1 "sysctl net.ipv6.conf.lo.forwarding=1";;
  net_cmd net id1 "sysctl net.ipv6.conf.lo.mc_forwarding=1".

(** Body of the loop over the node file (lines 61-83). *)
Definition config_loopback (net : gset string) (ipv4 : bool)
    (_ : unit) (loopback_info : string) : M unit :=
  if is_empty loopback_info then mret tt
  else fields ← unpack2 (split space loopback_info);
       configure_loopback net ipv4 fields.

(** Lines 108-110: the capture directory is removed when it is there and
    created again. *)
Definition reset_pcap_dir : M unit :=
  isdir ← pcap_dir_is_dir;
  (if isdir : bool then rmtree_pcap_dir else mret tt);;
  makedirs_pcap_dir.

(** Lines 91-111: the commands for the fields of a line of the link file. *)
Definition configure_interface (net : gset string) (traces ipv4 : bool)
    (fields : string * string * string * string * string) : M unit :=
  let '(id1, _, itf, link, loopback) := fields in
  net_cmd net id1 ("sysctl net.ipv6.conf." +:+ eth id1 itf +:+ ".forwarding=1");;
  net_cmd net id1 ("sysctl net.ipv6.conf." +:+ eth id1 itf +:+ ".mc_forwarding=1");;
  net_cmd net id1 ("sysctl net.ipv4." +:+ eth id1 itf +:+ ".ip_forward=1");;
  let cmd := interface_addr_cmd ipv4 link id1 itf in
  emit (Print (id1 +:+ " " +:+ cmd));;
  net_cmd net id1 cmd;;
  if traces then
    reset_pcap_dir;;
    net_cmd net id1 (capture_cmd id1 itf)
  else mret tt.

(** Body of the loop over the link file (lines 87-111). *)
Definition config_link (net : gset string) (traces ipv4 : bool)
    (_ : unit) (link_info : string) : M unit :=
  if is_empty link_info then mret tt
  else fields ← unpack5 (split space link_info);
       configure_interface net traces ipv4 fields.

(** Lines 119-124: the command for the fields of a line of the path file. *)
Definition add_route (net : gset string) (ipv4 : bool)
    (fields : string * string * string * string) : M unit :=
  let '(id1, itf, link, loopback) := fields in
  let cmd := route_cmd ipv4 loopback link in
  emit (Print (id1 +:+ " " +:+ cmd));;
  net_cmd net id1 cmd.

(** Body of the loop over the path file (lines 115-124). *)
Definition install_route (net : gset string) (ipv4 : bool)
    (_ : unit) (path_info : string) : M unit :=
  if is_empty path_info then mret tt
  else fields ← unpack4 (split space path_info); add_route net ipv4 fields.

Definition simpleRun (E : env) (a : args) : M unit :=
  emit (Print ("USE IPV4 " +:+ py_bool (ipv4 a)));;
  topo ← build E empty_topo a;
  net ← Mininet E topo;
  emit NetStart;;
  emit DumpNodeConnections;;
  txt ← read_lines E (loopbacks a);
  for_each (config_loopback net (ipv4 a)) tt txt;;
  txt ← read_lines E (links a);
  for_each (config_link net (traces a) (ipv4 a)) tt txt;;
  txt ← read_lines E (paths a);
  for_each (install_route net (ipv4 a)) tt txt;;
  emit StartCLI;;
  emit NetStop.

(** ** Running the model on the example of the specification *)

Definition example_nodes : string :=
  "A 10.0.0.1/32" +:+ String newline "B 10.0.0.2/32".
Definition example_links : string :=
  "A B 0 10.0.0.5/30 10.0.0.2/32" +:+ String newline "B A 0 10.0.0.6/30 10.0.0.1/32".
Definition example_paths : string :=
  "A 0 10.0.0.6 10.0.0.2/32" +:+ String newline "".

Definition example_files : gmap string string :=
  <["nodes" := example_nodes]> (<["links" := example_links]>
    (<["paths" := example_paths]> ∅)).

Definition example_env : env := Env example_files ∅.

Definition example_args (traces ipv4 : bool) : args :=
  Args "nodes" "links" "paths" traces ipv4.

(** A node file that names the same host on two lines. *)
Definition duplicate_nodes : string :=
  "A 10.0.0.1/32" +:+ String newline "A 10.0.0.2/32".

Definition duplicate_env : env :=
  Env (<["nodes" := duplicate_nodes]> (<["links" := ""]> (<["paths" := ""]> ∅))) ∅.

(** The example with a path file whose second record is about a host [Z]
    that the node file does not have. *)
Definition unknown_host_paths : string :=
  "A 0 10.0.0.6 10.0.0.2/32" +:+ String newline "Z 0 10.0.0.6 10.0.0.9/32".

Definition unknown_host_env : env :=
  Env (<["paths" := unknown_host_paths]> example_files) ∅.

(** The example with a link file whose only line has four fields. *)
Definition short_link_env : env :=
  Env (<["links" := "A B 0 10.0.0.5/30"]> example_files) ∅.

(** ** Records of the input files *)

(** The lines of a file that the loops do not skip. *)
Definition nonblank_lines (content : string) : list string :=
  filter (λ l, is_empty l = false) (split newline content).

(** The fields of a line that has as many fields as the loop unpacks. *)
Definition node_record (line : string) : option (string * string) :=
  match split space line with
  | [a; b] => Some (a, b)
  | _ => None
  end.

Definition link_record (line : string)
  : option (string * string * string * string * string) :=
  match split space line with
  | [a; b; c; d; e] => Some (a, b, c, d, e)
  | _ => None
  end.

Definition path_record (line : string)
  : option (string * string * string * string) :=
  match split space line with
  | [a; b; c; d] => Some (a, b, c, d)
  | _ => None
  end.

(** The records of a file all of whose lines have the right number of
    fields. *)
Definition records {R} (parse : string → option R) (content : string)
  : option (list R) :=
  mapM parse (nonblank_lines content).

(** The two endpoints of a link record. *)
Definition endpoints (r : string * string * string * string * string)
  : string * string :=
  let '(id1, id2, _, _, _) := r in (id1, id2).

(** The host a record of the link file or of the path file is about. *)
Definition link_host (r : string * string * string * string * string) : string :=
  let '(id1, _, _, _, _) := r in id1.
Definition path_host (r : string * string * string * string) : string :=
  let '(id1, _, _, _) := r in id1.

(** The number of fields that the loops unpack from a line of each file. *)
Definition expected_fields (a : args) : list (string * nat) :=
  [(loopbacks a, 2); (links a, 5); (paths a, 4)].

(** [line] is a line of one of the input files that the loops do not skip
    and that has another number of fields than its loop unpacks. *)
Definition malformed_line (E : env) (a : args) (line : string) : Prop :=
  ∃ path n content,
    (path, n) ∈ expected_fields a ∧
    files E !! path = Some content ∧
    line ∈ nonblank_lines content ∧
    length (split space line) ≠ n.

(** The file at [path] has the same lines in [E] and in [E'], blank lines
    apart (or is missing in both). *)
Definition same_nonblank (E E' : env) (path : string) : Prop :=
  nonblank_lines <$> files E !! path = nonblank_lines <$> files E' !! path.

(** The example with blank lines before, between and after the lines of
    its files. *)
Definition blank_lines_env : env :=
  Env (<["nodes" := String newline example_nodes +:+ String newline ""]>
        (<["links" := "A B 0 10.0.0.5/30 10.0.0.2/32" +:+ String newline
                        (String newline "B A 0 10.0.0.6/30 10.0.0.1/32")]>
          (<["paths" := "A 0 10.0.0.6 10.0.0.2/32"]> ∅))) ∅.

(** The creations of the capture directory in a trace. *)
Definition pcap_dir_resets (t : list event) : list event :=
  filter (λ e, e = Makedirs PCAP_DIR) t.

(** ** Reading traces *)

(** The ids of the hosts registered with the engine, in order. *)
Definition hosts_registered (t : list event) : list string :=
  omap (λ e, match e with AddHost name _ _ => Some name | _ => None end) t.

(** The links requested from the engine, in order. *)
Definition links_created (t : list event) : list (string * string) :=
  omap (λ e, match e with AddLink n1 n2 => Some (n1, n2) | _ => None end) t.

(** The commands sent to hosts, in order. *)
Definition host_cmds (t : list event) : list (string * string) :=
  omap (λ e, match e with HostCmd h c => Some (h, c) | _ => None end) t.

(** An undirected pair of endpoints: [(a, b)] and [(b, a)] are the same. *)
Definition unordered (p : string * string) : gset string := {[p.1; p.2]}.

(** The distinct undirected pairs of a list of endpoint pairs. *)
Definition undirected_pairs (ps : list (string * string)) : gset (gset string) :=
  list_to_set (unordered <$> ps).

(** The links of a trace that join [a] and [b], in either direction. *)
Definition links_between (a b : string) (t : list event) : list (string * string) :=
  filter (λ l, unordered l = unordered (a, b)) (links_created t).

(** ** What a complete pass over the records issues *)

(** The registration of the host of a node record (line 24). *)
Definition node_event (r : string * string) : event :=
  AddHost r.1 r.2 ("00:00:00:00:00:" +:+ r.1).

(** The endpoint pairs for which the loop of lines 31-38 reaches [addLink],
    starting from the set [seen] of [all_links]. *)
Fixpoint new_links (seen : gset (string * string)) (ps : list (string * string))
  : list (string * string) :=
  match ps with
  | [] => []
  | (id1, id2) :: ps' =>
      if bool_decide ((id1, id2) ∈ seen) || bool_decide ((id2, id1) ∈ seen)
      then new_links seen ps'
      else (id1, id2) :: new_links ({[(id1, id2)]} ∪ seen) ps'
  end.

Definition link_event (p : string * string) : event := AddLink p.1 p.2.

(** The undirected pairs of a set of directed ones. *)
Definition unordered_set (seen : gset (string * string)) : gset (gset string) :=
  set_map unordered seen.

(** The topology and the dictionary [all_nodes] after the loop over the
    node records. *)
Definition nodes_topo (self : Topo) (nodes : list (string * string)) : Topo :=
  foldl (λ self r, MkTopo ({[r.1]} ∪ topo_hosts self) (topo_links self)) self nodes.

Definition nodes_dict (m : gmap string string) (nodes : list (string * string))
  : gmap string string :=
  foldl (λ m r, <[r.1 := r.1]> m) m nodes.

(** Both endpoints of a pair are keys of [all_nodes], bound to themselves as
    [addHost] returns the name it is given. *)
Definition known (all_nodes : gmap string string) (p : string * string) : Prop :=
  all_nodes !! p.1 = Some p.1 ∧ all_nodes !! p.2 = Some p.2.

(** The first endpoint of a pair that is not a key of [all_nodes]. *)
Definition missing_endpoint (all_nodes : gmap string string)
    (p : string * string) : string :=
  match all_nodes !! p.1 with
  | Some _ => p.2
  | None => p.1
  end.

(** An event other than the registration of a host. *)
Definition not_add_host (e : event) : Prop :=
  match e with
  | AddHost _ _ _ => False
  | _ => True
  end.

(** An event other than a call on the engine after the topology is built. *)
Definition topology_event (e : event) : Prop :=
  match e with
  | Print _ | AddHost _ _ _ | AddLink _ _ => True
  | _ => False
  end.

(** The commands a host receives for a record of each file, as pairs of the
    host and the text, in the order of the lines of the script. *)
Definition loopback_cmds (v4 : bool) (r : string * string)
  : list (string * string) :=
  let '(id1, loopback) := r in
  [ (id1, loopback_addr_cmd v4 loopback);
    (id1, "sysctl net.ipv4.ip_forward=1");
    (id1, "sysctl net.ipv6.conf.all.forwarding=1");
    (id1, "sysctl net.ipv6.conf.all.mc_forwarding=1");
    (id1, "sysctl net.ipv6.conf.lo.forwarding=1");
    (id1, "sysctl net.ipv6.conf.lo.mc_forwarding=1") ].

Definition interface_cmds (tr v4 : bool)
    (r : string * string * string * string * string) : list (string * string) :=
  let '(id1, _, itf, link, _) := r in
  [ (id1, "sysctl net.ipv6.conf." +:+ eth id1 itf +:+ ".forwarding=1");
    (id1, "sysctl net.ipv6.conf." +:+ eth id1 itf +:+ ".mc_forwarding=1");
    (id1, "sysctl net.ipv4." +:+ eth id1 itf +:+ ".ip_forward=1");
    (id1, interface_addr_cmd v4 link id1 itf) ]
  ++ (if tr then [(id1, capture_cmd id1 itf)] else []).

Definition route_cmds (v4 : bool) (r : string * string * string * string)
  : list (string * string) :=
  let '(id1, _, link, loopback) := r in
  [ (id1, route_cmd v4 loopback link) ].

(** The records of the file at [path], when the file is there and its lines
    have the right number of fields. *)
Definition file_records {R} (E : env) (path : string) (parse : string → option R)
  : option (list R) :=
  files E !! path ≫= records parse.

(** The table [net] of a topology with the hosts of [nodes]. *)
Definition net_of (E : env) (nodes : list (string * string)) : gset string :=
  list_to_set nodes.*1 ∪ engine_nodes E.

(** Inputs on which the script configures every host and interface: the node
    and link files are well-formed, the endpoints of the links are hosts of
    the node file, and the path of the capture directory is free or a
    directory when captures are asked for. *)
Record configurable (E : env) (a : args) (d : dir_status)
    (nodes : list (string * string))
    (lnks : list (string * string * string * string * string)) : Prop := {
  nodes_parsed : file_records E (loopbacks a) node_record = Some nodes;
  links_parsed : file_records E (links a) link_record = Some lnks;
  endpoints_known :
    Forall (λ r, (endpoints r).1 ∈ nodes.*1 ∧ (endpoints r).2 ∈ nodes.*1) lnks;
  pcap_dir_free : traces a = true → d ≠ NotADirectory
}.

(** The rest of [simpleRun] after the loop over the link file
    (lines 113-130). *)
Definition routes_and_session (E : env) (net : gset string) (a : args) : M unit :=
  txt ← read_lines E (paths a);
  for_each (install_route net (ipv4 a)) tt txt;;
  emit StartCLI;;
  emit NetStop.

(** The run [r] after the events [t]. *)
Definition prepend {A} (t : list event) (r : run A) : run A :=
  Run (t ++ trace r) (dir_after r) (outcome r).

(** An event that leaves the topology as it is. *)
Definition configuration_event (e : event) : Prop :=
  match e with
  | AddHost _ _ _ | AddLink _ _ => False
  | _ => True
  end.

(** An event other than the creation of the capture directory. *)
Definition not_reset (e : event) : Prop := e ≠ Makedirs PCAP_DIR.

(** ** Reading commands *)

(** The variants of the commands, told apart by how their text starts. *)
Definition is_addr4 (cmd : string) : bool := String.prefix "ip addr add " cmd.
Definition is_addr6 (cmd : string) : bool := String.prefix "ip -6 addr add " cmd.
Definition is_route4 (cmd : string) : bool := String.prefix "ip route add " cmd.
Definition is_route6 (cmd : string) : bool := String.prefix "ip -6 route add " cmd.
Definition is_sysctl (cmd : string) : bool := String.prefix "sysctl " cmd.

Definition is_addr_cmd (cmd : string) : bool := is_addr4 cmd || is_addr6 cmd.
Definition is_route_cmd (cmd : string) : bool := is_route4 cmd || is_route6 cmd.

(** The commands that enable forwarding globally and on the loopback
    interface (lines 73-82). *)
Definition global_forwarding_cmds : list string :=
  [ "sysctl net.ipv4.ip_forward=1";
    "sysctl net.ipv6.conf.all.forwarding=1";
    "sysctl net.ipv6.conf.all.mc_forwarding=1";
    "sysctl net.ipv6.conf.lo.forwarding=1";
    "sysctl net.ipv6.conf.lo.mc_forwarding=1" ].

Definition is_global_forwarding (cmd : string) : bool :=
  bool_decide (cmd ∈ global_forwarding_cmds).

(** An event is a command to a host whose text satisfies [p]. *)
Definition cmd_is (p : string → bool) (e : event) : bool :=
  match e with
  | HostCmd _ cmd => p cmd
  | _ => false
  end.

(** The ordering that the specification asks of the commands of a host:
    every command that enables forwarding globally or on the loopback
    interface comes before every address assignment. *)
Definition forwarding_before_addresses (t : list event) : Prop :=
  ∀ host i j c1 c2,
    host_cmds t !! i = Some (host, c1) → is_global_forwarding c1 = true →
    host_cmds t !! j = Some (host, c2) → is_addr_cmd c2 = true →
    i < j.

(** An event is not a command whose text satisfies [p]. *)
Definition not_cmd (p : string → bool) (e : event) : Prop := cmd_is p e = false.

(** Every event of every run of [m] satisfies [P]. *)
Definition trace_all {A} (P : event → Prop) (m : M A) : Prop :=
  ∀ d, Forall P (trace (m d)).

(** Every run of [m] is a stretch of [P] events followed by a stretch of
    [Q] events. *)
Definition trace_phases {A} (P Q : event → Prop) (m : M A) : Prop :=
  ∀ d, ∃ t1 t2, trace (m d) = t1 ++ t2 ∧ Forall P t1 ∧ Forall Q t2.

Definition is_ipv4_variant (cmd : string) : bool := is_addr4 cmd || is_route4 cmd.
Definition is_ipv6_variant (cmd : string) : bool := is_addr6 cmd || is_route6 cmd.

(** The variant that a run with flag [v4] must not use. *)
Definition other_family (v4 : bool) (cmd : string) : bool :=
  if v4 then is_ipv6_variant cmd else is_ipv4_variant cmd.

(** A command that enables forwarding or assigns an address. *)
Definition is_config_cmd (cmd : string) : bool := is_sysctl cmd || is_addr_cmd cmd.

(** ** Further readings of the script *)

(** The rest of [simpleRun] after the loop over the node file
    (lines 85-130). *)
Definition interfaces_and_session (E : env) (net : gset string) (a : args)
  : M unit :=
  txt ← read_lines E (links a);
  for_each (config_link net (traces a) (ipv4 a)) tt txt;;
  routes_and_session E net a.

(** The rest of [simpleRun] once the topology is built (lines 51-130). *)
Definition configure_and_session (E : env) (a : args) (topo : Topo) : M unit :=
  net ← Mininet E topo;
  emit NetStart;;
  emit DumpNodeConnections;;
  txt ← read_lines E (loopbacks a);
  for_each (config_loopback net (ipv4 a)) tt txt;;
  txt ← read_lines E (links a);
  for_each (config_link net (traces a) (ipv4 a)) tt txt;;
  txt ← read_lines E (paths a);
  for_each (install_route net (ipv4 a)) tt txt;;
  emit StartCLI;;
  emit NetStop.

(** A run of [m] leaves the path of the capture directory as it finds it. *)
Definition keeps_dir {A} (m : M A) : Prop := ∀ d, dir_after (m d) = d.

(** A command that starts a capture. *)
Definition starts_capture (cmd : string) : bool := String.prefix "tcpdump " cmd.

(** An event that has nothing to do with captures. *)
Definition capture_free (e : event) : Prop :=
  match e with
  | Rmtree _ | Makedirs _ => False
  | HostCmd _ cmd => starts_capture cmd = false
  | _ => True
  end.

(** An event that is not a command to a host outside of [net]. *)
Definition cmd_within (net : gset string) (e : event) : Prop :=
  match e with
  | HostCmd host _ => host ∈ net
  | _ => True
  end.

(** The link-layer address of a registered host is made of its name. *)
Definition mac_of_name (e : event) : Prop :=
  match e with
  | AddHost name _ mac => mac = "00:00:00:00:00:" +:+ name
  | _ => True
  end.

(** An event before the interactive session. *)
Definition before_session (e : event) : Prop := e ≠ StartCLI ∧ e ≠ NetStop.

(** A run of [m] either returns with the session opened and closed as its
    last two events, or raises without the session. *)
Definition ends_with_session (m : M unit) : Prop :=
  ∀ d,
    (∃ t, m d = Run (t ++ [StartCLI; NetStop]) (dir_after (m d)) (Returned tt) ∧
          Forall before_session t) ∨
    (∃ e, outcome (m d) = Raised e ∧ Forall before_session (trace (m d))).

(** Three files without a line. *)
Definition empty_env : env :=
  Env (<["nodes" := ""]> (<["links" := ""]> (<["paths" := String newline ""]> ∅))) ∅.

(** The arguments with another value of the flag [traces]. *)
Definition with_traces (a : args) (tr : bool) : args :=
  Args (loopbacks a) (links a) (paths a) tr (ipv4 a).

(** A command other than the start of a capture. *)
Definition not_capture (hc : string * string) : bool := negb (starts_capture hc.2).

(** A line of [n] spaces. *)
Fixpoint spaces (n : nat) : string :=
  match n with
  | 0 => ""
  | S n' => String space (spaces n')
  end.

(** [sep.join(fields)] *)
Fixpoint join (sep : ascii) (fields : list string) : string :=
  match fields with
  | [] => ""
  | [w] => w
  | w :: ws => w +:+ String sep (join sep ws)
  end.

(** [c in s] *)
Fixpoint has_char (c : ascii) (s : string) : bool :=
  match s with
  | EmptyString => false
  | String c' s' => Ascii.eqb c' c || has_char c s'
  end.

(** The number of occurrences of [c] in [s], [s.count(c)]. *)
Fixpoint count_char (c : ascii) (s : string) : nat :=
  match s with
  | EmptyString => 0
  | String c' s' => (if Ascii.eqb c' c then 1 else 0) + count_char c s'
  end.

(** ** Paths *)

(** The separator of the components of a path. *)
Definition slash : ascii := "/"%char.

(** One step of a walk from the directory [dir], written as its components
    from the root: an empty component and [.] stay where they are, [..]
    goes to the parent (the root is its own parent), a name goes down. *)
Definition walk_step (dir : list string) (c : string) : list string :=
  if String.eqb c "" || String.eqb c "." then dir
  else if String.eqb c ".." then removelast dir
  else dir ++ [c].

(** Where [path] leads from the working directory [cwd]: the walk starts at
    the root for a path that starts with [/] and at [cwd] otherwise
    ([os.path.normpath(os.path.join(cwd, path))], symbolic links apart). *)
Definition resolve (cwd : list string) (path : string) : list string :=
  foldl walk_step (if String.prefix "/" path then [] else cwd)
    (split slash path).

(** [p] lies below the directory [dir]: [dir] and at least one more name. *)
Fixpoint below (dir p : list string) : bool :=
  match dir, p with
  | [], _ :: _ => true
  | c :: dir, c' :: p => String.eqb c c' && below dir p
  | _, _ => false
  end.

(** The file at [path] is in the capture directory, that is among what
    [shutil.rmtree(PCAP_DIR)] removes. The script names the directory and
    the commands of the hosts name their files from the same working
    directory: the shell of a host is a child of the process of the
    script. *)
Definition inside_pcap_dir (cwd : list string) (path : string) : bool :=
  below (resolve cwd PCAP_DIR) (resolve cwd path).

(** The arguments with another value of the flag [ipv4]. *)
Definition with_ipv4 (a : args) (v4 : bool) : args :=
  Args (loopbacks a) (links a) (paths a) (traces a) v4.

(** A command that neither assigns an address nor installs a route. *)
Definition family_free (hc : string * string) : bool :=
  negb (is_addr_cmd hc.2 || is_route_cmd hc.2).

(** * Properties *)

(** ** The monad *)

Section monad.
Context {A B : Type}.
Implicit Types (m : M A) (f : A → M B) (d : dir_status).

Lemma bind_raised m f d e :
  outcome (m d) = Raised e →
  (m ≫= f) d = Run (trace (m d)) (dir_after (m d)) (Raised e).
Proof. intros H. unfold mbind, M_mbind, M_bind. by rewrite H. Qed.

Lemma bind_returned m f d a :
  outcome (m d) = Returned a →
  (m ≫= f) d =
    Run (trace (m d) ++ trace (f a (dir_after (m d))))
        (dir_after (f a (dir_after (m d))))
        (outcome (f a (dir_after (m d)))).
Proof. intros H. unfold mbind, M_mbind, M_bind. by rewrite H. Qed.

Lemma bind_run m f d t d' a :
  m d = Run t d' (Returned a) →
  (m ≫= f) d = Run (t ++ trace (f a d')) (dir_after (f a d')) (outcome (f a d')).
Proof. intros H. rewrite (bind_returned _ _ _ a); by rewrite H. Qed.

Lemma bind_ext m m' f f' :
  (∀ d, m d = m' d) → (∀ a d, f a d = f' a d) →
  ∀ d, (m ≫= f) d = (m' ≫= f') d.
Proof.
  intros Hm Hf d. unfold mbind, M_mbind, M_bind. rewrite Hm.
  destruct (outcome (m' d)); [done|]. by rewrite Hf.
Qed.

Lemma trace_all_bind P m f :
  trace_all P m → (∀ a, trace_all P (f a)) → trace_all P (m ≫= f).
Proof.
  intros Hm Hf d. specialize (Hm d). unfold mbind, M_mbind, M_bind.
  destruct (outcome (m d)); simpl; [done|].
  apply Forall_app; split; [done | apply Hf].
Qed.

Lemma trace_phases_bind_l P Q m f :
  trace_all P m → (∀ a, trace_phases P Q (f a)) → trace_phases P Q (m ≫= f).
Proof.
  intros Hm Hf d. specialize (Hm d). unfold mbind, M_mbind, M_bind.
  destruct (outcome (m d)) as [e|a]; simpl.
  - exists (trace (m d)), []. by rewrite app_nil_r.
  - destruct (Hf a (dir_after (m d))) as (t1 & t2 & -> & H1 & H2).
    exists (trace (m d) ++ t1), t2. rewrite app_assoc.
    split_and!; [done | by apply Forall_app | done].
Qed.
End monad.

Lemma trace_all_ret {A} P (a : A) : trace_all P (mret a).
Proof. intros d. constructor. Qed.

Lemma trace_all_raise {A} P e : trace_all P (raise (A:=A) e).
Proof. intros d. constructor. Qed.

Lemma trace_all_emit (P : event → Prop) e : P e → trace_all P (emit e).
Proof. intros H d. by repeat constructor. Qed.

Lemma trace_all_for_each {A B} P (body : A → B → M A) xs :
  (∀ acc x, trace_all P (body acc x)) → ∀ acc, trace_all P (for_each body acc xs).
Proof.
  intros Hb. induction xs as [|x xs IH]; intros acc; simpl.
  - apply trace_all_ret.
  - apply trace_all_bind; auto.
Qed.

Lemma trace_phases_all {A} P Q (m : M A) : trace_all Q m → trace_phases P Q m.
Proof. intros H d. exists [], (trace (m d)). split_and!; [done | constructor | apply H]. Qed.

Lemma trace_all_read_lines P E path : trace_all P (read_lines E path).
Proof.
  unfold read_lines. destruct (files E !! path);
    [apply trace_all_ret | apply trace_all_raise].
Qed.

Lemma trace_all_unpack2 P fs : trace_all P (unpack2 fs).
Proof.
  unfold unpack2. destruct fs as [|a [|b [|c fs]]];
    first [apply trace_all_ret | apply trace_all_raise].
Qed.

Lemma trace_all_unpack4 P fs : trace_all P (unpack4 fs).
Proof.
  unfold unpack4. destruct fs as [|a [|b [|c [|c' [|c'' fs]]]]];
    first [apply trace_all_ret | apply trace_all_raise].
Qed.

Lemma trace_all_unpack5 P fs : trace_all P (unpack5 fs).
Proof.
  unfold unpack5. destruct fs as [|a [|b [|c [|c' [|c'' [|c''' fs]]]]]];
    first [apply trace_all_ret | apply trace_all_raise].
Qed.

Lemma trace_all_getitem P m k : trace_all P (getitem m k).
Proof.
  unfold getitem. destruct (m !! k); [apply trace_all_ret | apply trace_all_raise].
Qed.

Lemma net_cmd_run net name cmd d :
  net_cmd net name cmd d =
    if bool_decide (name ∈ net)
    then Run [HostCmd name cmd] d (Returned tt)
    else Run [] d (Raised (KeyError name)).
Proof. unfold net_cmd, net_getitem. by case_bool_decide. Qed.

Lemma trace_all_net_cmd (P : event → Prop) net name cmd :
  P (HostCmd name cmd) → trace_all P (net_cmd net name cmd).
Proof.
  intros H d. rewrite net_cmd_run. case_bool_decide; simpl; by repeat constructor.
Qed.

Lemma trace_all_pcap_dir_is_dir P : trace_all P pcap_dir_is_dir.
Proof. intros d. constructor. Qed.

Lemma trace_all_rmtree (P : event → Prop) :
  P (Rmtree PCAP_DIR) → trace_all P rmtree_pcap_dir.
Proof. intros H d. by repeat constructor. Qed.

Lemma trace_all_makedirs (P : event → Prop) :
  P (Makedirs PCAP_DIR) → trace_all P makedirs_pcap_dir.
Proof. intros H [| |]; simpl; by repeat constructor. Qed.

(** Splits a computation along its binds, down to the calls it makes. *)
Ltac trace_all_step :=
  lazymatch goal with
  | |- trace_all _ (match ?x with _ => _ end) => destruct x
  | |- trace_all _ (if ?b then _ else _) => destruct b
  | |- trace_all _ (let _ := _ in _) => cbv zeta
  | |- trace_all _ (_ ≫= _) => apply trace_all_bind; [| intros ?]
  | |- trace_all _ (mret _) => apply trace_all_ret
  | |- trace_all _ (raise _) => apply trace_all_raise
  | |- trace_all _ (emit _) => apply trace_all_emit
  | |- trace_all _ (read_lines _ _) => apply trace_all_read_lines
  | |- trace_all _ (unpack2 _) => apply trace_all_unpack2
  | |- trace_all _ (unpack4 _) => apply trace_all_unpack4
  | |- trace_all _ (unpack5 _) => apply trace_all_unpack5
  | |- trace_all _ (getitem _ _) => apply trace_all_getitem
  | |- trace_all _ (net_cmd _ _ _) => apply trace_all_net_cmd
  | |- trace_all _ (Mininet _ _) => unfold Mininet
  | |- trace_all _ pcap_dir_is_dir => apply trace_all_pcap_dir_is_dir
  | |- trace_all _ rmtree_pcap_dir => apply trace_all_rmtree
  | |- trace_all _ makedirs_pcap_dir => apply trace_all_makedirs
  | |- trace_all _ (for_each _ _ _) => apply trace_all_for_each; intros ? ?
  end.

Ltac trace_all_body := repeat trace_all_step; try reflexivity.

(** ** Events of each part of the script *)

Section parts.
Context (P : event → Prop) (E : env).

Lemma trace_all_build_node st node_info :
  (∀ name ip mac, P (AddHost name ip mac)) →
  trace_all P (build_node st node_info).
Proof. intros H. unfold build_node, register_node, addHost. trace_all_body; apply H. Qed.

Lemma trace_all_build_link all_nodes st link_info :
  (∀ n1 n2, P (AddLink n1 n2)) →
  trace_all P (build_link all_nodes st link_info).
Proof. intros H. unfold build_link, connect, addLink. trace_all_body; apply H. Qed.

Lemma trace_all_build self kwargs :
  (∀ name ip mac, P (AddHost name ip mac)) →
  (∀ n1 n2, P (AddLink n1 n2)) →
  trace_all P (build E self kwargs).
Proof.
  intros H1 H2. unfold build. trace_all_body.
  - by apply trace_all_build_node.
  - by apply trace_all_build_link.
Qed.
End parts.

(** Commands of the three configuration loops, for the two properties of
    commands that the ordering and the address family are stated with. *)
Section loops.
Context (net : gset string) (v4 : bool).

Lemma config_loopback_no_route acc line :
  trace_all (not_cmd is_route_cmd) (config_loopback net v4 acc line).
Proof. unfold config_loopback, configure_loopback. destruct v4; trace_all_body. Qed.

Lemma config_link_no_route tr acc line :
  trace_all (not_cmd is_route_cmd) (config_link net tr v4 acc line).
Proof.
  unfold config_link, configure_interface, reset_pcap_dir.
  destruct v4; trace_all_body.
Qed.

Lemma install_route_no_config acc line :
  trace_all (not_cmd is_config_cmd) (install_route net v4 acc line).
Proof. unfold install_route, add_route. destruct v4; trace_all_body. Qed.

Lemma config_loopback_family acc line :
  trace_all (not_cmd (other_family v4)) (config_loopback net v4 acc line).
Proof. unfold config_loopback, configure_loopback. destruct v4; trace_all_body. Qed.

Lemma config_link_family tr acc line :
  trace_all (not_cmd (other_family v4)) (config_link net tr v4 acc line).
Proof.
  unfold config_link, configure_interface, reset_pcap_dir.
  destruct v4; trace_all_body.
Qed.

Lemma install_route_family acc line :
  trace_all (not_cmd (other_family v4)) (install_route net v4 acc line).
Proof. unfold install_route, add_route. destruct v4; trace_all_body. Qed.
End loops.

Lemma simpleRun_family E a :
  trace_all (not_cmd (other_family (ipv4 a))) (simpleRun E a).
Proof.
  unfold simpleRun. trace_all_body.
  - by apply trace_all_build.
  - apply config_loopback_family.
  - apply config_link_family.
  - apply install_route_family.
Qed.

Lemma simpleRun_phases E a :
  trace_phases (not_cmd is_route_cmd) (not_cmd is_config_cmd) (simpleRun E a).
Proof.
  unfold simpleRun.
  do 9 (apply trace_phases_bind_l;
        [ trace_all_body;
          first [ by apply trace_all_build
                | apply config_loopback_no_route
                | apply config_link_no_route ]
        | intros ? ]).
  apply trace_phases_all. trace_all_body. apply install_route_no_config.
Qed.

(** ** Order of the commands, address family *)

(** C3: in the sequence of calls of a run, every route-installation command
    comes after every forwarding-enable (sysctl) and address-assignment
    command, whatever the hosts they are sent to; this holds for runs that
    stop with an exception too. *)
Theorem routes_after_configuration E a d i j h1 c1 h2 c2 :
  trace (simpleRun E a d) !! i = Some (HostCmd h1 c1) →
  is_route_cmd c1 = true →
  trace (simpleRun E a d) !! j = Some (HostCmd h2 c2) →
  is_config_cmd c2 = true →
  j < i.
Proof.
  intros Hi Hr Hj Hc.
  destruct (simpleRun_phases E a d) as (t1 & t2 & Ht & H1 & H2).
  rewrite Ht in Hi, Hj.
  destruct (decide (i < length t1)) as [Hlt|Hge].
  - rewrite lookup_app_l in Hi by done.
    rewrite Forall_lookup in H1. specialize (H1 _ _ Hi).
    unfold not_cmd in H1. simpl in H1. congruence.
  - destruct (decide (j < length t1)) as [?|Hge']; [lia|].
    rewrite lookup_app_r in Hj by lia.
    rewrite Forall_lookup in H2. specialize (H2 _ _ Hj).
    unfold not_cmd in H2. simpl in H2. congruence.
Qed.

Lemma routes_after_configuration_witness :
  trace (simpleRun example_env (example_args false false) Absent) !! 32
    = Some (HostCmd "A" "ip -6 route add 10.0.0.2/32 via 10.0.0.6") ∧
  19 < 32.
Proof.
  split; [vm_compute; reflexivity|].
  apply (routes_after_configuration example_env (example_args false false) Absent
           32 19 "A" "ip -6 route add 10.0.0.2/32 via 10.0.0.6"
           "B" "sysctl net.ipv6.conf.lo.forwarding=1");
    vm_compute; reflexivity.
Defined.

(** C5: every address-assignment and every route-installation command of a
    run is of the IPv4 variant when the flag [ipv4] is set and of the IPv6
    variant when it is not; a run never has commands of both variants. *)
Theorem address_family_uniform E a d host cmd :
  HostCmd host cmd ∈ trace (simpleRun E a d) →
  is_addr_cmd cmd || is_route_cmd cmd = true →
  is_ipv4_variant cmd = ipv4 a ∧ is_ipv6_variant cmd = negb (ipv4 a).
Proof.
  intros Hin Hc.
  pose proof (simpleRun_family E a d) as H. rewrite Forall_forall in H.
  specialize (H _ Hin). unfold not_cmd in H. simpl in H.
  unfold other_family, is_ipv4_variant, is_ipv6_variant in *.
  unfold is_addr_cmd, is_route_cmd in Hc.
  destruct (ipv4 a), (is_addr4 cmd), (is_addr6 cmd), (is_route4 cmd), (is_route6 cmd);
    simpl in *; try done.
Qed.

Lemma address_family_uniform_witness :
  is_ipv4_variant "ip route add 10.0.0.2/32 via 10.0.0.6" = true ∧
  is_ipv6_variant "ip route add 10.0.0.2/32 via 10.0.0.6" = false.
Proof.
  apply (address_family_uniform example_env (example_args false true) Absent "A").
  - apply list_elem_of_lookup. exists 32. vm_compute. reflexivity.
  - reflexivity.
Defined.

(** ** Loops over the lines of a file *)

Lemma run_eta {A} (r : run A) : Run (trace r) (dir_after r) (outcome r) = r.
Proof. by destruct r. Qed.

Lemma bind_ret_run {A B} (a : A) (f : A → M B) d : (mret a ≫= f) d = f a d.
Proof. unfold mbind, mret, M_mbind, M_mret, M_bind, M_ret. simpl. apply run_eta. Qed.

Lemma bind_raised_eq {A B} (m : M A) (f : A → M B) d t d' e :
  m d = Run t d' (Raised e) → (m ≫= f) d = Run t d' (Raised e).
Proof. intros H. rewrite (bind_raised _ _ _ e); by rewrite H. Qed.

Lemma for_each_cons {A B} (body : A → B → M A) acc x xs :
  for_each body acc (x :: xs) = (acc' ← body acc x; for_each body acc' xs).
Proof. done. Qed.

Lemma for_each_cons_run {A B} (body : A → B → M A) acc x xs d t d' acc' :
  body acc x d = Run t d' (Returned acc') →
  for_each body acc (x :: xs) d =
    Run (t ++ trace (for_each body acc' xs d'))
        (dir_after (for_each body acc' xs d'))
        (outcome (for_each body acc' xs d')).
Proof.
  intros H. rewrite for_each_cons.
  exact (bind_run _ (λ acc', for_each body acc' xs) _ _ _ _ H).
Qed.

Lemma for_each_app {A B} (body : A → B → M A) xs ys :
  ∀ acc d, for_each body acc (xs ++ ys) d =
           (acc' ← for_each body acc xs; for_each body acc' ys) d.
Proof.
  induction xs as [|x xs IH]; intros acc d; simpl.
  - by rewrite bind_ret_run.
  - unfold mbind, M_mbind, M_bind at 1 3. 
    destruct (outcome (body acc x d)) as [e|acc'] eqn:Hx; simpl.
    + unfold M_bind. by rewrite Hx.
    + rewrite IH. unfold mbind, M_mbind, M_bind. rewrite Hx. simpl.
      destruct (outcome (for_each body acc' xs _)); simpl; [done|].
      by rewrite app_assoc.
Qed.

Section lines.
Context {A R : Type}.
Context (parse : string → option R) (unpack : list string → M R).
Context (step : A → R → M A) (body : A → string → M A).
Context (expected : nat).
Hypothesis body_eq : ∀ acc line,
  body acc line =
    if is_empty line then mret acc
    else fields ← unpack (split space line); step acc fields.
Hypothesis unpack_some : ∀ line r,
  parse line = Some r → unpack (split space line) = mret r.
Hypothesis unpack_none : ∀ line,
  parse line = None →
  unpack (split space line) = raise (ValueError expected (length (split space line))).

Lemma body_blank acc line d :
  is_empty line = true → body acc line d = Run [] d (Returned acc).
Proof. intros H. by rewrite body_eq, H. Qed.

Lemma body_record acc line r d :
  is_empty line = false → parse line = Some r → body acc line d = step acc r d.
Proof.
  intros H Hr. rewrite body_eq, H, (unpack_some _ _ Hr). apply bind_ret_run.
Qed.

Lemma body_malformed acc line d :
  is_empty line = false → parse line = None →
  body acc line d =
    Run [] d (Raised (ValueError expected (length (split space line)))).
Proof. intros H Hr. by rewrite body_eq, H, (unpack_none _ Hr). Qed.

(** Blank lines are skipped: the loop runs on the other lines. *)
Lemma for_each_nonblank lines :
  ∀ acc d, for_each body acc lines d =
           for_each body acc (filter (λ l, is_empty l = false) lines) d.
Proof.
  induction lines as [|x lines IH]; intros acc d; [done|].
  destruct (is_empty x) eqn:Hx.
  - rewrite filter_cons_False by congruence. simpl.
    unfold mbind, M_mbind, M_bind. rewrite body_blank by done. simpl.
    rewrite <- IH. apply run_eta.
  - rewrite filter_cons_True by done. simpl.
    unfold mbind, M_mbind, M_bind.
    destruct (outcome (body acc x d)); [done|]. by rewrite IH.
Qed.

(** On lines with the right number of fields, the loop is the loop over
    their records. *)
Lemma for_each_parsed lines recs :
  Forall (λ l, is_empty l = false) lines →
  mapM parse lines = Some recs →
  ∀ acc d, for_each body acc lines d = for_each step acc recs d.
Proof.
  intros Hne Hp. apply mapM_Some in Hp.
  induction Hp as [|x r lines recs Hx _ IH]; intros acc d; [done|].
  inversion_clear Hne as [|?? Hx' Hne']. simpl.
  unfold mbind, M_mbind, M_bind. rewrite (body_record _ _ r) by done.
  destruct (outcome (step acc r d)); [done|]. by rewrite IH.
Qed.

Lemma for_each_records content recs :
  records parse content = Some recs →
  ∀ acc d, for_each body acc (split newline content) d = for_each step acc recs d.
Proof.
  intros Hp acc d. rewrite for_each_nonblank.
  apply for_each_parsed; [|done]. unfold nonblank_lines.
  apply Forall_forall. intros l Hl. by apply list_elem_of_filter in Hl as [? _].
Qed.

(** A loop that completes has unpacked every line it did not skip. *)
Lemma for_each_returned lines :
  ∀ acc d acc', outcome (for_each body acc lines d) = Returned acc' →
  is_Some (mapM parse (filter (λ l, is_empty l = false) lines)).
Proof.
  induction lines as [|x lines IH]; intros acc d acc' H; [by eexists|].
  simpl in H. unfold mbind, M_mbind, M_bind in H.
  destruct (is_empty x) eqn:Hx.
  - rewrite filter_cons_False by congruence.
    rewrite body_blank in H by done. simpl in H. eauto.
  - rewrite filter_cons_True by done.
    destruct (parse x) as [r|] eqn:Hr.
    + destruct (outcome (body acc x d)) as [|acc1]; [done|]. simpl in H.
      destruct (IH _ _ _ H) as [recs Hrecs]. exists (r :: recs).
      apply mapM_Some. constructor; [done|]. by apply mapM_Some.
    + by rewrite body_malformed in H.
Qed.
(** The first line with a wrong number of fields stops the loop, after the
    steps of the lines before it. *)
Lemma for_each_malformed lines pre_lines bad post pre acc d t d' acc' :
  filter (λ l, is_empty l = false) lines = pre_lines ++ bad :: post →
  mapM parse pre_lines = Some pre →
  parse bad = None →
  for_each step acc pre d = Run t d' (Returned acc') →
  for_each body acc lines d =
    Run t d' (Raised (ValueError expected (length (split space bad)))).
Proof.
  intros Hlines Hpre Hbad Hrun.
  assert (Forall (λ l, is_empty l = false) (pre_lines ++ bad :: post)) as Hne.
  { rewrite <- Hlines. apply Forall_forall. intros l Hl.
    by apply list_elem_of_filter in Hl as [? _]. }
  apply Forall_app in Hne as [Hne1 Hne2].
  inversion_clear Hne2 as [|?? Hb _].
  rewrite for_each_nonblank, Hlines, for_each_app.
  rewrite <- (for_each_parsed pre_lines pre Hne1 Hpre) in Hrun.
  rewrite (bind_run _ _ _ _ _ _ Hrun). rewrite for_each_cons.
  rewrite (bind_raised_eq _ _ _ _ _ _ (body_malformed acc' bad d' Hb Hbad)).
  simpl. by rewrite app_nil_r.
Qed.
End lines.

(** ** Undirected pairs *)

Lemma elem_of_unordered x a b : x ∈ unordered (a, b) ↔ x = a ∨ x = b.
Proof. unfold unordered. simpl. rewrite elem_of_union, !elem_of_singleton. done. Qed.

Lemma unordered_eq a b c d :
  unordered (a, b) = unordered (c, d) ↔ (a = c ∧ b = d) ∨ (a = d ∧ b = c).
Proof.
  split.
  - intros H.
    pose proof (proj2 (elem_of_unordered a a b) (or_introl eq_refl)) as Ha.
    pose proof (proj2 (elem_of_unordered b a b) (or_intror eq_refl)) as Hb.
    pose proof (proj2 (elem_of_unordered c c d) (or_introl eq_refl)) as Hc.
    pose proof (proj2 (elem_of_unordered d c d) (or_intror eq_refl)) as Hd.
    rewrite H in Ha, Hb. rewrite <- H in Hc, Hd.
    apply elem_of_unordered in Ha, Hb, Hc, Hd.
    destruct Ha, Hb, Hc, Hd; subst; auto.
  - intros [[-> ->]|[-> ->]]; [done|].
    apply set_eq. intros x. rewrite !elem_of_unordered. tauto.
Qed.

Lemma elem_of_unordered_set a b seen :
  unordered (a, b) ∈ unordered_set seen ↔ (a, b) ∈ seen ∨ (b, a) ∈ seen.
Proof.
  unfold unordered_set. rewrite elem_of_map. split.
  - intros ([c d] & Heq & Hin). apply unordered_eq in Heq as [[-> ->]|[-> ->]]; auto.
  - intros [H|H]; [by exists (a, b)|]. exists (b, a). split; [|done].
    apply unordered_eq. auto.
Qed.

Lemma unordered_set_insert p seen :
  unordered_set ({[p]} ∪ seen) = {[unordered p]} ∪ unordered_set seen.
Proof.
  unfold unordered_set. rewrite set_map_union_L. by rewrite set_map_singleton_L.
Qed.

Lemma unordered_set_empty : unordered_set ∅ = ∅.
Proof. unfold unordered_set. apply set_map_empty. Qed.

Lemma union_absorb (X Y : gset (gset string)) p :
  p ∈ Y → X ∪ Y = {[p]} ∪ X ∪ Y.
Proof.
  intros Hp. apply set_eq. intros x.
  rewrite !elem_of_union, elem_of_singleton. intuition (subst; auto).
Qed.

Lemma union_shift (X Y Z : gset (gset string)) p :
  X ∪ ({[p]} ∪ Y) = Z ∪ ({[p]} ∪ Y) → {[p]} ∪ X ∪ Y = {[p]} ∪ Z ∪ Y.
Proof.
  intros H. apply set_eq. intros x.
  assert (x ∈ X ∪ ({[p]} ∪ Y) ↔ x ∈ Z ∪ ({[p]} ∪ Y)) as Hx by (by rewrite H).
  rewrite !elem_of_union, !elem_of_singleton in Hx.
  rewrite !elem_of_union, !elem_of_singleton. tauto.
Qed.

Lemma new_links_spec ps :
  ∀ seen,
    NoDup (unordered <$> new_links seen ps) ∧
    (∀ l, l ∈ new_links seen ps → unordered l ∉ unordered_set seen) ∧
    list_to_set (unordered <$> new_links seen ps) ∪ unordered_set seen
      = undirected_pairs ps ∪ unordered_set seen.
Proof.
  unfold undirected_pairs.
  induction ps as [|[a b] ps IH]; intros seen; simpl.
  - split_and!; [constructor | by intros l ?%elem_of_nil | done].
  - destruct (bool_decide ((a, b) ∈ seen) || bool_decide ((b, a) ∈ seen)) eqn:Hs.
    + assert (unordered (a, b) ∈ unordered_set seen) as Hin.
      { apply elem_of_unordered_set.
        apply orb_true_iff in Hs as [H|H]; apply bool_decide_eq_true in H; auto. }
      destruct (IH seen) as (Hnd & Hfresh & Heq).
      split_and!; [done | done |]. rewrite Heq. by apply union_absorb.
    + assert (unordered (a, b) ∉ unordered_set seen) as Hnin.
      { rewrite elem_of_unordered_set.
        apply orb_false_iff in Hs as [H1 H2].
        apply bool_decide_eq_false in H1, H2. tauto. }
      destruct (IH ({[(a, b)]} ∪ seen)) as (Hnd & Hfresh & Heq).
      rewrite unordered_set_insert in Heq.
      assert (∀ l, l ∈ new_links ({[(a, b)]} ∪ seen) ps →
                   unordered l ≠ unordered (a, b) ∧
                   unordered l ∉ unordered_set seen) as Hfresh'.
      { intros l Hl. apply Hfresh in Hl. rewrite unordered_set_insert in Hl.
        rewrite not_elem_of_union, not_elem_of_singleton in Hl. done. }
      split_and!.
      * rewrite fmap_cons. constructor; [|done]. intros Hin.
        apply list_elem_of_fmap in Hin as (l & Hl & Hin).
        apply Hfresh' in Hin as [Hne _]. by apply Hne.
      * intros l Hl. apply elem_of_cons in Hl as [->|Hl]; [done|].
        by apply Hfresh' in Hl as [_ ?].
      * rewrite fmap_cons, !list_to_set_cons. by apply union_shift.
Qed.

Lemma new_links_count ps :
  length (new_links ∅ ps) = size (undirected_pairs ps).
Proof.
  destruct (new_links_spec ps ∅) as (Hnd & _ & Heq).
  rewrite unordered_set_empty, !(right_id_L ∅ (∪)) in Heq. rewrite <- Heq.
  rewrite size_list_to_set by done. by rewrite length_fmap.
Qed.

Lemma new_links_image ps :
  ∀ p, p ∈ ps → unordered p ∈ unordered <$> new_links ∅ ps.
Proof.
  intros p Hp. destruct (new_links_spec ps ∅) as (_ & _ & Heq).
  rewrite unordered_set_empty, !(right_id_L ∅ (∪)) in Heq.
  apply (elem_of_list_to_set (C:=gset (gset string))). rewrite Heq.
  unfold undirected_pairs. apply elem_of_list_to_set.
  by apply list_elem_of_fmap_2.
Qed.

Lemma filter_image_once {X Y} `{EqDecision Y} (f : X → Y) (l : list X) y :
  NoDup (f <$> l) → y ∈ f <$> l → length (filter (λ x, f x = y) l) = 1.
Proof.
  induction l as [|x l IH]; intros Hnd Hin.
  - by apply elem_of_nil in Hin.
  - rewrite fmap_cons in Hnd, Hin. apply NoDup_cons in Hnd as [Hx Hnd].
    destruct (decide (f x = y)) as [<-|Hne].
    + rewrite filter_cons_True by done. simpl. f_equal.
      apply length_zero_iff_nil.
      destruct (filter (λ z, f z = f x) l) as [|z zs] eqn:Hf; [done|].
      assert (z ∈ filter (λ z, f z = f x) l) as Hz by (rewrite Hf; left).
      apply list_elem_of_filter in Hz as [Hfz Hz]. exfalso. apply Hx.
      rewrite <- Hfz. by apply list_elem_of_fmap_2.
    + rewrite filter_cons_False by done. apply IH; [done|].
      apply elem_of_cons in Hin as [?|?]; [congruence | done].
Qed.

(** ** The loops of [build] *)

Lemma unpack2_some line r :
  node_record line = Some r → unpack2 (split space line) = mret r.
Proof.
  unfold node_record, unpack2.
  destruct (split space line) as [|a [|b [|c fs]]]; congruence.
Qed.

Lemma unpack2_none line :
  node_record line = None →
  unpack2 (split space line) = raise (ValueError 2 (length (split space line))).
Proof.
  unfold node_record, unpack2.
  destruct (split space line) as [|a [|b [|c fs]]]; congruence.
Qed.

Lemma unpack5_some line r :
  link_record line = Some r → unpack5 (split space line) = mret r.
Proof.
  unfold link_record, unpack5.
  destruct (split space line) as [|a [|b [|c [|c1 [|c2 [|c3 fs]]]]]]; congruence.
Qed.

Lemma unpack5_none line :
  link_record line = None →
  unpack5 (split space line) = raise (ValueError 5 (length (split space line))).
Proof.
  unfold link_record, unpack5.
  destruct (split space line) as [|a [|b [|c [|c1 [|c2 [|c3 fs]]]]]]; congruence.
Qed.

Lemma unpack4_some line r :
  path_record line = Some r → unpack4 (split space line) = mret r.
Proof.
  unfold path_record, unpack4.
  destruct (split space line) as [|a [|b [|c [|c1 [|c2 fs]]]]]; congruence.
Qed.

Lemma unpack4_none line :
  path_record line = None →
  unpack4 (split space line) = raise (ValueError 4 (length (split space line))).
Proof.
  unfold path_record, unpack4.
  destruct (split space line) as [|a [|b [|c [|c1 [|c2 fs]]]]]; congruence.
Qed.

Lemma read_lines_run E path content d :
  files E !! path = Some content →
  read_lines E path d = Run [] d (Returned (split newline content)).
Proof. intros H. unfold read_lines. by rewrite H. Qed.

Lemma register_nodes_run nodes :
  ∀ self m d,
    for_each register_node (self, m) nodes d =
      Run (node_event <$> nodes) d
          (Returned (nodes_topo self nodes, nodes_dict m nodes)).
Proof.
  induction nodes as [|[id lo] nodes IH]; intros self m d; [done|].
  simpl. erewrite bind_run; [|reflexivity]. by rewrite IH.
Qed.

Lemma nodes_topo_hosts nodes :
  ∀ self, topo_hosts (nodes_topo self nodes) = list_to_set nodes.*1 ∪ topo_hosts self.
Proof.
  induction nodes as [|[id lo] nodes IH]; intros self; simpl.
  - by rewrite (left_id_L ∅ (∪)).
  - unfold nodes_topo in *. simpl. rewrite IH. simpl.
    apply set_eq. intros x. rewrite !elem_of_union, !elem_of_singleton. tauto.
Qed.

Lemma nodes_dict_lookup nodes :
  ∀ m k, nodes_dict m nodes !! k =
         if bool_decide (k ∈ nodes.*1) then Some k else m !! k.
Proof.
  induction nodes as [|[id lo] nodes IH]; intros m k.
  - case_bool_decide as H; [by apply elem_of_nil in H | done].
  - change (nodes_dict (<[id:=id]> m) nodes !! k =
            if bool_decide (k ∈ id :: nodes.*1) then Some k else m !! k).
    rewrite IH. destruct (decide (k ∈ nodes.*1)) as [Hin|Hnin].
    + rewrite (bool_decide_eq_true_2 _ Hin).
      rewrite bool_decide_eq_true_2; [done | by right].
    + rewrite (bool_decide_eq_false_2 _ Hnin).
      destruct (decide (k = id)) as [->|Hne].
      * rewrite lookup_insert_eq, bool_decide_eq_true_2; [done | by left].
      * rewrite lookup_insert_ne by done.
        rewrite bool_decide_eq_false_2; [done|]. rewrite elem_of_cons. tauto.
Qed.

Lemma connect_seen all_nodes self seen r d :
  bool_decide (endpoints r ∈ seen)
    || bool_decide (((endpoints r).2, (endpoints r).1) ∈ seen) = true →
  connect all_nodes (self, seen) r d = Run [] d (Returned (self, seen)).
Proof. destruct r as [[[[a b] c] c'] c'']. simpl. by intros ->. Qed.

Lemma connect_new all_nodes self seen r d :
  bool_decide (endpoints r ∈ seen)
    || bool_decide (((endpoints r).2, (endpoints r).1) ∈ seen) = false →
  known all_nodes (endpoints r) →
  connect all_nodes (self, seen) r d =
    Run [link_event (endpoints r)] d
        (Returned (MkTopo (topo_hosts self) (topo_links self ++ [endpoints r]),
                   {[endpoints r]} ∪ seen)).
Proof.
  destruct r as [[[[a b] c] c'] c'']. simpl. intros -> [Ha Hb]. simpl in *.
  unfold getitem. by rewrite Ha, Hb.
Qed.

Lemma new_links_cons seen p ps :
  new_links seen (p :: ps) =
    if bool_decide (p ∈ seen) || bool_decide ((p.2, p.1) ∈ seen)
    then new_links seen ps
    else p :: new_links ({[p]} ∪ seen) ps.
Proof. by destruct p. Qed.

Lemma connect_links_run all_nodes recs :
  ∀ self seen d,
    Forall (λ r, known all_nodes (endpoints r)) recs →
    ∃ self' seen',
      for_each (connect all_nodes) (self, seen) recs d =
        Run (link_event <$> new_links seen (endpoints <$> recs)) d
            (Returned (self', seen')) ∧
      topo_hosts self' = topo_hosts self ∧
      (∀ p, p ∈ seen' → p ∈ seen ∨ p ∈ endpoints <$> recs).
Proof.
  induction recs as [|r recs IH]; intros self seen d Hk.
  - exists self, seen. split_and!; [done | done | auto].
  - inversion_clear Hk as [|?? Hr Hk'].
    rewrite fmap_cons, new_links_cons.
    destruct (bool_decide (endpoints r ∈ seen)
              || bool_decide (((endpoints r).2, (endpoints r).1) ∈ seen)) eqn:Hs.
    + destruct (IH self seen d Hk') as (self' & seen' & Hrun & Hh & Hsub).
      exists self', seen'. split_and!; [|done|].
      * rewrite (for_each_cons_run _ _ _ _ _ _ _ _ (connect_seen _ _ _ _ _ Hs)).
        by rewrite Hrun.
      * intros p Hp. destruct (Hsub p Hp); [auto|]. right. by right.
    + destruct (IH (MkTopo (topo_hosts self) (topo_links self ++ [endpoints r]))
                  ({[endpoints r]} ∪ seen) d Hk') as (self' & seen' & Hrun & Hh & Hsub).
      exists self', seen'. split_and!; [|done|].
      * rewrite (for_each_cons_run _ _ _ _ _ _ _ _ (connect_new _ _ _ _ _ Hs Hr)).
        by rewrite Hrun.
      * intros p Hp. destruct (Hsub p Hp) as [Hin|Hin].
        -- apply elem_of_union in Hin as [->%elem_of_singleton|?]; [|auto].
           right. by left.
        -- right. by right.
Qed.

(** A record with an endpoint that [all_nodes] does not have stops the loop
    with [KeyError], unless its pair is in [all_links] already. *)
Lemma connect_unknown all_nodes self seen r d :
  endpoints r ∉ seen →
  (∀ p, p ∈ seen → known all_nodes p) →
  ¬ (is_Some (all_nodes !! (endpoints r).1) ∧ is_Some (all_nodes !! (endpoints r).2)) →
  connect all_nodes (self, seen) r d =
    Run [] d (Raised (KeyError (missing_endpoint all_nodes (endpoints r)))).
Proof.
  destruct r as [[[[a b] c] c'] c'']. simpl. intros Hnin Hseen Hun.
  assert ((b, a) ∉ seen) as Hnin'.
  { intros Hin. apply Hseen in Hin as [H1 H2]. simpl in *. apply Hun. eauto. }
  rewrite (bool_decide_eq_false_2 _ Hnin), (bool_decide_eq_false_2 _ Hnin').
  simpl. unfold missing_endpoint, getitem. simpl.
  destruct (all_nodes !! a) as [va|] eqn:Ha; [|done].
  destruct (all_nodes !! b) as [vb|] eqn:Hb; [|done].
  exfalso. apply Hun. eauto.
Qed.

(** ** [build] on well-formed files *)

Lemma build_node_eq acc line :
  build_node acc line =
    if is_empty line then mret acc
    else fields ← unpack2 (split space line); register_node acc fields.
Proof. done. Qed.

Lemma build_link_eq all_nodes acc line :
  build_link all_nodes acc line =
    if is_empty line then mret acc
    else fields ← unpack5 (split space line); connect all_nodes acc fields.
Proof. done. Qed.

Lemma build_nodes_run content nodes self m d :
  records node_record content = Some nodes →
  for_each build_node (self, m) (split newline content) d =
    Run (node_event <$> nodes) d
        (Returned (nodes_topo self nodes, nodes_dict m nodes)).
Proof.
  intros Hn.
  rewrite (for_each_records node_record unpack2 register_node build_node
             build_node_eq unpack2_some content nodes Hn).
  apply register_nodes_run.
Qed.

Lemma hosts_registered_app t1 t2 :
  hosts_registered (t1 ++ t2) = hosts_registered t1 ++ hosts_registered t2.
Proof. apply omap_app. Qed.

Lemma hosts_registered_nodes nodes :
  hosts_registered (node_event <$> nodes) = nodes.*1.
Proof. induction nodes as [|[id lo] nodes IH]; [done|]. simpl. by f_equal. Qed.

Lemma hosts_registered_none t : Forall not_add_host t → hosts_registered t = [].
Proof.
  induction 1 as [|e t He _ IH]; [done|].
  destruct e; simpl in *; done.
Qed.

Lemma links_created_app t1 t2 :
  links_created (t1 ++ t2) = links_created t1 ++ links_created t2.
Proof. apply omap_app. Qed.

Lemma links_created_nodes nodes : links_created (node_event <$> nodes) = [].
Proof. by induction nodes. Qed.

Lemma links_created_links ps : links_created (link_event <$> ps) = ps.
Proof. induction ps as [|[a b] ps IH]; [done|]. simpl. by f_equal. Qed.

(** After the node loop, [build] registers no host. *)
Lemma build_registers E self kwargs d content nodes :
  files E !! loopbacks kwargs = Some content →
  records node_record content = Some nodes →
  hosts_registered (trace (build E self kwargs d)) = nodes.*1.
Proof.
  intros Hf Hn. unfold build.
  rewrite (bind_run _ _ _ _ _ _ (read_lines_run _ _ _ d Hf)). simpl.
  rewrite (bind_run _ _ _ _ _ _ (build_nodes_run _ _ self ∅ d Hn)). simpl.
  rewrite hosts_registered_app, hosts_registered_nodes.
  rewrite hosts_registered_none; [by rewrite app_nil_r|].
  generalize d. change (trace_all not_add_host
    (txt ← read_lines E (links kwargs);
     '(self0, _) ← for_each (build_link (nodes_dict ∅ nodes))
                     (nodes_topo self nodes, ∅) txt;
     mret self0)).
  trace_all_body. by apply trace_all_build_link.
Qed.

Lemma build_run E self kwargs d ntxt ltxt nodes lnks :
  files E !! loopbacks kwargs = Some ntxt →
  files E !! links kwargs = Some ltxt →
  records node_record ntxt = Some nodes →
  records link_record ltxt = Some lnks →
  Forall (λ r, (endpoints r).1 ∈ nodes.*1 ∧ (endpoints r).2 ∈ nodes.*1) lnks →
  ∃ topo,
    build E self kwargs d =
      Run ((node_event <$> nodes)
             ++ (link_event <$> new_links ∅ (endpoints <$> lnks)))
          d (Returned topo) ∧
    topo_hosts topo = list_to_set nodes.*1 ∪ topo_hosts self.
Proof.
  intros Hf1 Hf2 Hn Hl Hk. unfold build.
  rewrite (bind_run _ _ _ _ _ _ (read_lines_run _ _ _ d Hf1)). simpl.
  rewrite (bind_run _ _ _ _ _ _ (build_nodes_run _ _ self ∅ d Hn)). simpl.
  rewrite (bind_run _ _ _ _ _ _ (read_lines_run _ _ _ d Hf2)). simpl.
  destruct (connect_links_run (nodes_dict ∅ nodes) lnks (nodes_topo self nodes) ∅ d)
    as (topo & seen & Hrun & Hh & _).
  { eapply Forall_impl; [exact Hk|]. intros r [H1 H2]. unfold known.
    rewrite !nodes_dict_lookup. by rewrite !bool_decide_eq_true_2. }
  rewrite <- (for_each_records link_record unpack5 (connect (nodes_dict ∅ nodes))
               (build_link (nodes_dict ∅ nodes)) (build_link_eq _) unpack5_some
               ltxt lnks Hl) in Hrun.
  exists topo. split.
  - rewrite (bind_run _ _ _ _ _ _ Hrun). simpl. by rewrite app_nil_r.
  - by rewrite Hh, nodes_topo_hosts.
Qed.

(** ** Hosts and links of the topology *)

(** C1: when [build] completes (the files are well-formed and the endpoints
    of every link record are in the node file), the number of [addLink]
    calls is the number of distinct undirected endpoint pairs of the link
    records, and every pair of endpoints that occurs in a record, in either
    direction and however often, gets exactly one [addLink] call. *)
Theorem one_link_per_undirected_pair E self kwargs d ntxt ltxt nodes lnks :
  files E !! loopbacks kwargs = Some ntxt →
  files E !! links kwargs = Some ltxt →
  records node_record ntxt = Some nodes →
  records link_record ltxt = Some lnks →
  Forall (λ r, (endpoints r).1 ∈ nodes.*1 ∧ (endpoints r).2 ∈ nodes.*1) lnks →
  (∃ topo, outcome (build E self kwargs d) = Returned topo) ∧
  length (links_created (trace (build E self kwargs d)))
    = size (undirected_pairs (endpoints <$> lnks)) ∧
  ∀ a b, (a, b) ∈ endpoints <$> lnks ∨ (b, a) ∈ endpoints <$> lnks →
         length (links_between a b (trace (build E self kwargs d))) = 1.
Proof.
  intros Hf1 Hf2 Hn Hl Hk.
  destruct (build_run E self kwargs d _ _ _ _ Hf1 Hf2 Hn Hl Hk) as (topo & -> & _).
  simpl. split; [by exists topo|].
  unfold links_between.
  rewrite links_created_app, links_created_nodes, links_created_links. simpl.
  split; [apply new_links_count|].
  intros a b Hab.
  destruct (new_links_spec (endpoints <$> lnks) ∅) as (Hnd & _ & _).
  apply filter_image_once; [done|].
  destruct Hab as [Hab|Hba].
  - by apply (new_links_image _ (a, b)).
  - replace (unordered (a, b)) with (unordered (b, a))
      by (apply unordered_eq; auto).
    by apply (new_links_image _ (b, a)).
Qed.

Lemma one_link_per_undirected_pair_witness :
  length (links_between "B" "A"
            (trace (build example_env empty_topo (example_args false false) Absent)))
    = 1.
Proof.
  refine (proj2 (proj2 (one_link_per_undirected_pair example_env empty_topo
            (example_args false false) Absent example_nodes example_links
            [("A", "10.0.0.1/32"); ("B", "10.0.0.2/32")]
            [("A", "B", "0", "10.0.0.5/30", "10.0.0.2/32");
             ("B", "A", "0", "10.0.0.6/30", "10.0.0.1/32")] _ _ _ _ _)) "B" "A" _).
  - vm_compute; reflexivity.
  - vm_compute; reflexivity.
  - vm_compute; reflexivity.
  - vm_compute; reflexivity.
  - repeat constructor; simpl; rewrite list_elem_of_In; simpl; tauto.
  - left. rewrite list_elem_of_In. simpl. tauto.
Defined.

(** C8 (as amended): for a node file whose non-blank lines all have two
    fields, [build] registers one host per line, in file order and with the
    id of the line; so the ids registered are pairwise distinct exactly
    when the ids of the file are. *)
Theorem one_host_per_node_line E self kwargs d content nodes :
  files E !! loopbacks kwargs = Some content →
  records node_record content = Some nodes →
  hosts_registered (trace (build E self kwargs d)) = nodes.*1 ∧
  length (hosts_registered (trace (build E self kwargs d)))
    = length (nonblank_lines content) ∧
  (NoDup (hosts_registered (trace (build E self kwargs d))) ↔ NoDup nodes.*1).
Proof.
  intros Hf Hn. rewrite (build_registers E self kwargs d content nodes Hf Hn).
  split_and!; [done | | done].
  rewrite length_fmap. symmetry. by apply (length_mapM node_record).
Qed.

Lemma one_host_per_node_line_witness :
  hosts_registered
    (trace (build example_env empty_topo (example_args false false) Absent))
    = ["A"; "B"].
Proof.
  refine (proj1 (one_host_per_node_line example_env empty_topo
            (example_args false false) Absent example_nodes
            [("A", "10.0.0.1/32"); ("B", "10.0.0.2/32")] _ _));
    vm_compute; reflexivity.
Defined.

(** C8 fails as stated: two well-formed lines with the same id register the
    same id twice. *)
Lemma duplicate_ids_not_distinct :
  records node_record duplicate_nodes
    = Some [("A", "10.0.0.1/32"); ("A", "10.0.0.2/32")] ∧
  ¬ NoDup (hosts_registered
             (trace (build duplicate_env empty_topo (example_args false false) Absent))).
Proof.
  split; [vm_compute; reflexivity|].
  intros H.
  assert (hosts_registered
            (trace (build duplicate_env empty_topo (example_args false false) Absent))
          = ["A"; "A"]) as Heq by (vm_compute; reflexivity).
  rewrite Heq in H. apply NoDup_cons in H as [H _]. apply H. by left.
Qed.

(** ** The loops of [simpleRun] *)

Lemma host_cmds_app t1 t2 : host_cmds (t1 ++ t2) = host_cmds t1 ++ host_cmds t2.
Proof. apply omap_app. Qed.

Lemma config_loopback_eq net v4 acc line :
  config_loopback net v4 acc line =
    if is_empty line then mret acc
    else fields ← unpack2 (split space line);
         (λ _, configure_loopback net v4) acc fields.
Proof. by destruct acc. Qed.

Lemma config_link_eq net tr v4 acc line :
  config_link net tr v4 acc line =
    if is_empty line then mret acc
    else fields ← unpack5 (split space line);
         (λ _, configure_interface net tr v4) acc fields.
Proof. by destruct acc. Qed.

Lemma install_route_eq net v4 acc line :
  install_route net v4 acc line =
    if is_empty line then mret acc
    else fields ← unpack4 (split space line); (λ _, add_route net v4) acc fields.
Proof. by destruct acc. Qed.

Lemma configure_loopback_run net v4 r d :
  r.1 ∈ net →
  configure_loopback net v4 r d =
    Run (Print (loopback_addr_cmd v4 r.2)
           :: ((λ hc, HostCmd hc.1 hc.2) <$> loopback_cmds v4 r))
        d (Returned tt).
Proof.
  destruct r as [id1 lo]. simpl. intros Hin.
  unfold configure_loopback, net_cmd, net_getitem.
  rewrite (bool_decide_eq_true_2 _ Hin). reflexivity.
Qed.

Lemma configure_interface_run net tr v4 r d :
  link_host r ∈ net → (tr = true → d ≠ NotADirectory) →
  ∃ t,
    configure_interface net tr v4 r d =
      Run t (if tr then Directory else d) (Returned tt) ∧
    host_cmds t = interface_cmds tr v4 r ∧
    length (pcap_dir_resets t) = if tr then 1 else 0.
Proof.
  destruct r as [[[[id1 id2] itf] link] lo]. simpl. intros Hin Hd.
  unfold configure_interface, reset_pcap_dir, net_cmd, net_getitem.
  rewrite (bool_decide_eq_true_2 _ Hin).
  destruct tr; [|eexists; split_and!; reflexivity].
  destruct d; [| |by destruct Hd]; eexists; split_and!; reflexivity.
Qed.

Lemma add_route_run net v4 r d :
  path_host r ∈ net →
  ∃ t, add_route net v4 r d = Run t d (Returned tt) ∧
       host_cmds t = route_cmds v4 r.
Proof.
  destruct r as [[[id1 itf] link] lo]. simpl. intros Hin.
  unfold add_route, net_cmd, net_getitem.
  rewrite (bool_decide_eq_true_2 _ Hin). eexists. split; reflexivity.
Qed.

Lemma add_route_unknown net v4 r d :
  path_host r ∉ net →
  ∃ line, add_route net v4 r d = Run [Print line] d (Raised (KeyError (path_host r))).
Proof.
  destruct r as [[[id1 itf] link] lo]. simpl. intros Hin.
  unfold add_route, net_cmd, net_getitem.
  rewrite (bool_decide_eq_false_2 _ Hin). eexists. reflexivity.
Qed.

(** A loop whose steps all return issues the commands of its records, in
    order; [Inv] is what the steps keep of the status of the directory. *)
Lemma for_each_cmds {R} (step : R → M unit) (cmds : R → list (string * string))
    (Inv : dir_status → Prop) recs :
  (∀ r d, r ∈ recs → Inv d →
     ∃ t d', step r d = Run t d' (Returned tt) ∧ host_cmds t = cmds r ∧ Inv d') →
  ∀ d, Inv d →
    ∃ t d', for_each (λ _, step) tt recs d = Run t d' (Returned tt) ∧
            host_cmds t = flat_map cmds recs ∧ Inv d'.
Proof.
  induction recs as [|r recs IH]; intros Hstep d Hd.
  - exists [], d. by split_and!.
  - destruct (Hstep r d) as (t1 & d1 & Hr & Hc & Hd1); [by left | done |].
    destruct (IH (λ r' d' Hin, Hstep r' d' (list_elem_of_further _ _ _ Hin)) d1 Hd1)
      as (t2 & d2 & Hrs & Hcs & Hd2).
    exists (t1 ++ t2), d2. split_and!; [|by rewrite host_cmds_app, Hc, Hcs|done].
    rewrite (for_each_cons_run (λ _, step) tt r recs d t1 d1 tt Hr).
    by rewrite Hrs.
Qed.

Lemma loopbacks_run net v4 nodes d :
  Forall (λ r, r.1 ∈ net) nodes →
  ∃ t, for_each (λ _, configure_loopback net v4) tt nodes d = Run t d (Returned tt) ∧
       host_cmds t = flat_map (loopback_cmds v4) nodes.
Proof.
  intros Hin.
  destruct (for_each_cmds (configure_loopback net v4) (loopback_cmds v4)
              (λ d', d' = d) nodes) with (d := d) as (t & d' & Hrun & Hc & ->);
    [|done|by exists t].
  intros r d' Hr ->. rewrite Forall_forall in Hin.
  rewrite (configure_loopback_run net v4 r d (Hin r Hr)).
  eexists _, d. split_and!; [done | | done].
  destruct r as [id1 lo]. reflexivity.
Qed.

Lemma interfaces_run net tr v4 lnks d :
  Forall (λ r, link_host r ∈ net) lnks → (tr = true → d ≠ NotADirectory) →
  ∃ t d', for_each (λ _, configure_interface net tr v4) tt lnks d
            = Run t d' (Returned tt) ∧
          host_cmds t = flat_map (interface_cmds tr v4) lnks.
Proof.
  intros Hin Hd.
  destruct (for_each_cmds (configure_interface net tr v4) (interface_cmds tr v4)
              (λ d', tr = true → d' ≠ NotADirectory) lnks) with (d := d)
    as (t & d' & Hrun & Hc & _); [|done|by exists t, d'].
  intros r d1 Hr Hd1. rewrite Forall_forall in Hin.
  destruct (configure_interface_run net tr v4 r d1 (Hin r Hr) Hd1)
    as (t & Hrun & Hc & _).
  exists t, (if tr then Directory else d1). split_and!; [done | done |].
  destruct tr; [done | exact Hd1].
Qed.

Lemma pcap_dir_resets_app t1 t2 :
  pcap_dir_resets (t1 ++ t2) = pcap_dir_resets t1 ++ pcap_dir_resets t2.
Proof. apply filter_app. Qed.

(** The loop over the link records creates the capture directory once for
    each record when captures are asked for. *)
Lemma interfaces_resets net tr v4 lnks :
  ∀ d t d',
    Forall (λ r, link_host r ∈ net) lnks → (tr = true → d ≠ NotADirectory) →
    for_each (λ _, configure_interface net tr v4) tt lnks d = Run t d' (Returned tt) →
    length (pcap_dir_resets t) = if tr then length lnks else 0.
Proof.
  induction lnks as [|r lnks IH]; intros d t d' Hin Hd Hrun.
  - injection Hrun as <- _. by destruct tr.
  - inversion_clear Hin as [|?? Hr Hin'].
    destruct (configure_interface_run net tr v4 r d Hr Hd) as (t1 & Hstep & _ & Hn).
    assert (tr = true → (if tr then Directory else d) ≠ NotADirectory) as Hd1
      by (by destruct tr).
    destruct (interfaces_run net tr v4 lnks _ Hin' Hd1) as (t2 & d2 & Hrest & _).
    rewrite (for_each_cons_run _ _ _ _ _ _ _ _ Hstep), Hrest in Hrun.
    injection Hrun as <- _.
    rewrite pcap_dir_resets_app, length_app, Hn, (IH _ _ _ Hin' Hd1 Hrest).
    by destruct tr.
Qed.

Lemma routes_run net v4 pths d :
  Forall (λ r, path_host r ∈ net) pths →
  ∃ t, for_each (λ _, add_route net v4) tt pths d = Run t d (Returned tt) ∧
       host_cmds t = flat_map (route_cmds v4) pths.
Proof.
  intros Hin.
  destruct (for_each_cmds (add_route net v4) (route_cmds v4)
              (λ d', d' = d) pths) with (d := d) as (t & d' & Hrun & Hc & ->);
    [|done|by exists t].
  intros r d' Hr ->. rewrite Forall_forall in Hin.
  destruct (add_route_run net v4 r d (Hin r Hr)) as (t & Hrun & Hc).
  by exists t, d.
Qed.

(** The loops of [simpleRun] leave the topology as it is; [build] sends no
    command. *)
Lemma config_loopback_configures net v4 acc line :
  trace_all configuration_event (config_loopback net v4 acc line).
Proof. unfold config_loopback, configure_loopback. trace_all_body. Qed.

Lemma config_link_configures net tr v4 acc line :
  trace_all configuration_event (config_link net tr v4 acc line).
Proof.
  unfold config_link, configure_interface, reset_pcap_dir. trace_all_body.
Qed.

Lemma configuration_no_host t :
  Forall configuration_event t → hosts_registered t = [].
Proof.
  induction 1 as [|e t He _ IH]; [done|]. destruct e; simpl in *; done.
Qed.

Lemma configuration_no_link t :
  Forall configuration_event t → links_created t = [].
Proof.
  induction 1 as [|e t He _ IH]; [done|]. destruct e; simpl in *; done.
Qed.

Lemma topology_no_cmd t : Forall topology_event t → host_cmds t = [].
Proof.
  induction 1 as [|e t He _ IH]; [done|]. destruct e; simpl in *; done.
Qed.

Lemma node_events_topology nodes : Forall topology_event (node_event <$> nodes).
Proof. apply Forall_fmap, Forall_true. by intros [??]. Qed.

Lemma link_events_topology ps : Forall topology_event (link_event <$> ps).
Proof. apply Forall_fmap, Forall_true. by intros [??]. Qed.

Lemma link_events_no_host ps : hosts_registered (link_event <$> ps) = [].
Proof. by induction ps as [|[??] ps IH]. Qed.

Lemma no_resets t : Forall not_reset t → pcap_dir_resets t = [].
Proof.
  induction 1 as [|e t He _ IH]; [done|].
  unfold pcap_dir_resets in *. by rewrite filter_cons_False.
Qed.

Lemma topology_not_reset t : Forall topology_event t → Forall not_reset t.
Proof. intros H. eapply Forall_impl; [exact H|]. by intros e He ->. Qed.

Lemma config_loopback_no_reset net v4 acc line :
  trace_all not_reset (config_loopback net v4 acc line).
Proof. unfold config_loopback, configure_loopback. repeat trace_all_step; done. Qed.

Lemma install_route_no_reset net v4 acc line :
  trace_all not_reset (install_route net v4 acc line).
Proof. unfold install_route, add_route. repeat trace_all_step; done. Qed.

Lemma routes_and_session_no_reset E net a :
  trace_all not_reset (routes_and_session E net a).
Proof.
  unfold routes_and_session. repeat trace_all_step; try done.
  apply install_route_no_reset.
Qed.

(** ** [simpleRun] up to the routes *)

Lemma bind_prepend {A B} (m : M A) (f : A → M B) d t d' a :
  m d = Run t d' (Returned a) → (m ≫= f) d = prepend t (f a d').
Proof. apply bind_run. Qed.

Lemma prepend_prepend {A} t1 t2 (r : run A) :
  prepend t1 (prepend t2 r) = prepend (t1 ++ t2) r.
Proof. unfold prepend. simpl. by rewrite app_assoc. Qed.

Lemma prepend_nil {A} (r : run A) : prepend [] r = r.
Proof. apply run_eta. Qed.

Lemma emit_run e d : emit e d = Run [e] d (Returned tt).
Proof. done. Qed.

Lemma Mininet_run E topo d :
  Mininet E topo d = Run [MininetCreate] d (Returned (topo_hosts topo ∪ engine_nodes E)).
Proof. done. Qed.

Lemma file_records_some {R} E path (parse : string → option R) recs :
  file_records E path parse = Some recs →
  ∃ content, files E !! path = Some content ∧ records parse content = Some recs.
Proof.
  unfold file_records. destruct (files E !! path) as [c|]; [|done].
  intros H. by exists c.
Qed.

Lemma simpleRun_configures E a d nodes lnks :
  configurable E a d nodes lnks →
  ∃ t0 d0,
    simpleRun E a d = prepend t0 (routes_and_session E (net_of E nodes) a d0) ∧
    host_cmds t0 = flat_map (loopback_cmds (ipv4 a)) nodes
                     ++ flat_map (interface_cmds (traces a) (ipv4 a)) lnks ∧
    hosts_registered t0 = nodes.*1 ∧
    links_created t0 = new_links ∅ (endpoints <$> lnks) ∧
    length (pcap_dir_resets t0) = if traces a then length lnks else 0.
Proof.
  intros [Hn Hl Hk Hd].
  apply file_records_some in Hn as (ntxt & Hf1 & Hn).
  apply file_records_some in Hl as (ltxt & Hf2 & Hl).
  destruct (build_run E empty_topo a d _ _ _ _ Hf1 Hf2 Hn Hl Hk)
    as (topo & Hbuild & Hhosts).
  assert (topo_hosts topo ∪ engine_nodes E = net_of E nodes) as Hnet.
  { unfold net_of. rewrite Hhosts. simpl. by rewrite (right_id_L ∅ (∪)). }
  destruct (loopbacks_run (net_of E nodes) (ipv4 a) nodes d) as (t1 & Hr1 & Hc1).
  { apply Forall_forall. intros r Hr. unfold net_of.
    apply elem_of_union_l, elem_of_list_to_set. by apply list_elem_of_fmap_2. }
  assert (Forall (λ r, link_host r ∈ net_of E nodes) lnks) as Hhosts'.
  { eapply Forall_impl; [exact Hk|]. intros [[[[id1 id2] itf] link] lo] [H1 _].
    simpl in *. unfold net_of. by apply elem_of_union_l, elem_of_list_to_set. }
  destruct (interfaces_run (net_of E nodes) (traces a) (ipv4 a) lnks d Hhosts' Hd)
    as (t2 & d2 & Hr2 & Hc2).
  pose proof (interfaces_resets _ _ _ _ _ _ _ Hhosts' Hd Hr2) as Hn2.
  rewrite <- (for_each_records node_record unpack2 (λ _, configure_loopback _ _)
               (config_loopback _ _) (config_loopback_eq _ _) unpack2_some
               ntxt nodes Hn) in Hr1.
  rewrite <- (for_each_records link_record unpack5 (λ _, configure_interface _ _ _)
               (config_link _ _ _) (config_link_eq _ _ _) unpack5_some
               ltxt lnks Hl) in Hr2.
  eexists _, d2. split.
  - unfold simpleRun.
    rewrite (bind_prepend _ _ _ _ _ _ (emit_run _ d)). cbv beta.
    rewrite (bind_prepend _ _ _ _ _ _ Hbuild). cbv beta.
    rewrite (bind_prepend _ _ _ _ _ _ (Mininet_run E topo d)). cbv beta.
    rewrite Hnet.
    rewrite (bind_prepend _ _ _ _ _ _ (emit_run _ d)). cbv beta.
    rewrite (bind_prepend _ _ _ _ _ _ (emit_run _ d)). cbv beta.
    rewrite (bind_prepend _ _ _ _ _ _ (read_lines_run _ _ _ d Hf1)). cbv beta.
    rewrite (bind_prepend _ _ _ _ _ _ Hr1). cbv beta.
    rewrite (bind_prepend _ _ _ _ _ _ (read_lines_run _ _ _ d Hf2)). cbv beta.
    rewrite (bind_prepend _ _ _ _ _ _ Hr2). cbv beta.
    rewrite !prepend_prepend. reflexivity.
  - assert (Forall configuration_event t1) as Ht1.
    { pose proof (trace_all_for_each configuration_event _ (split newline ntxt)
                    (config_loopback_configures (net_of E nodes) (ipv4 a)) tt d) as H.
      by rewrite Hr1 in H. }
    assert (Forall configuration_event t2) as Ht2.
    { pose proof (trace_all_for_each configuration_event _ (split newline ltxt)
                    (config_link_configures (net_of E nodes) (traces a) (ipv4 a))
                    tt d) as H.
      by rewrite Hr2 in H. }
    assert (Forall not_reset t1) as Hnr1.
    { pose proof (trace_all_for_each not_reset _ (split newline ntxt)
                    (config_loopback_no_reset (net_of E nodes) (ipv4 a)) tt d) as H.
      by rewrite Hr1 in H. }
    split_and!.
    + rewrite !host_cmds_app, Hc1, Hc2.
      rewrite (topology_no_cmd _ (node_events_topology nodes)).
      rewrite (topology_no_cmd _ (link_events_topology _)).
      simpl. by rewrite !app_nil_r.
    + rewrite !hosts_registered_app, hosts_registered_nodes, link_events_no_host.
      rewrite (configuration_no_host t1 Ht1), (configuration_no_host t2 Ht2).
      simpl. by rewrite !app_nil_r.
    + rewrite !links_created_app, links_created_nodes, links_created_links.
      rewrite (configuration_no_link t1 Ht1), (configuration_no_link t2 Ht2).
      simpl. by rewrite !app_nil_r.
    + rewrite !pcap_dir_resets_app, !length_app, Hn2.
      rewrite (no_resets t1 Hnr1).
      rewrite (no_resets _ (topology_not_reset _ (node_events_topology nodes))).
      rewrite (no_resets _ (topology_not_reset _ (link_events_topology _))).
      simpl. lia.
Qed.

(** ** The routes *)

Lemma routes_and_session_run E net a d pths :
  file_records E (paths a) path_record = Some pths →
  Forall (λ r, path_host r ∈ net) pths →
  ∃ t, routes_and_session E net a d = Run t d (Returned tt) ∧
       host_cmds t = flat_map (route_cmds (ipv4 a)) pths.
Proof.
  intros Hp Hin. apply file_records_some in Hp as (ptxt & Hf & Hp).
  destruct (routes_run net (ipv4 a) pths d Hin) as (t & Hr & Hc).
  rewrite <- (for_each_records path_record unpack4 (λ _, add_route _ _)
               (install_route _ _) (install_route_eq _ _) unpack4_some
               ptxt pths Hp) in Hr.
  exists (t ++ [StartCLI; NetStop]). split.
  - unfold routes_and_session.
    rewrite (bind_prepend _ _ _ _ _ _ (read_lines_run _ _ _ d Hf)). cbv beta.
    rewrite (bind_prepend _ _ _ _ _ _ Hr). cbv beta.
    unfold prepend. simpl. reflexivity.
  - rewrite host_cmds_app, Hc. simpl. by rewrite app_nil_r.
Qed.

(** A path record for a host that [net] does not have stops the loop: the
    routes of the records before it are installed, its own is not. *)
Lemma routes_and_session_unknown E net a d pre r post :
  file_records E (paths a) path_record = Some (pre ++ r :: post) →
  Forall (λ r, path_host r ∈ net) pre →
  path_host r ∉ net →
  ∃ t, routes_and_session E net a d = Run t d (Raised (KeyError (path_host r))) ∧
       host_cmds t = flat_map (route_cmds (ipv4 a)) pre.
Proof.
  intros Hp Hin Hr. apply file_records_some in Hp as (ptxt & Hf & Hp).
  destruct (routes_run net (ipv4 a) pre d Hin) as (t & Hpre & Hc).
  destruct (add_route_unknown net (ipv4 a) r d Hr) as (line & Hbad).
  assert (for_each (install_route net (ipv4 a)) tt (split newline ptxt) d
          = Run (t ++ [Print line]) d (Raised (KeyError (path_host r)))) as Hloop.
  { rewrite (for_each_records path_record unpack4 (λ _, add_route _ _)
               (install_route _ _) (install_route_eq _ _) unpack4_some
               ptxt _ Hp).
    rewrite for_each_app. rewrite (bind_prepend _ _ _ _ _ _ Hpre). cbv beta.
    rewrite for_each_cons. by rewrite (bind_raised_eq _ _ _ _ _ _ Hbad). }
  exists (t ++ [Print line]). split.
  - unfold routes_and_session.
    rewrite (bind_prepend _ _ _ _ _ _ (read_lines_run _ _ _ d Hf)). cbv beta.
    by rewrite (bind_raised_eq _ _ _ _ _ _ Hloop).
  - rewrite host_cmds_app, Hc. simpl. by rewrite app_nil_r.
Qed.

(** ** Complete runs *)

Lemma simpleRun_ok E a d nodes lnks pths :
  configurable E a d nodes lnks →
  file_records E (paths a) path_record = Some pths →
  Forall (λ r, path_host r ∈ net_of E nodes) pths →
  ∃ t d',
    simpleRun E a d = Run t d' (Returned tt) ∧
    host_cmds t = flat_map (loopback_cmds (ipv4 a)) nodes
                    ++ flat_map (interface_cmds (traces a) (ipv4 a)) lnks
                    ++ flat_map (route_cmds (ipv4 a)) pths.
Proof.
  intros Hc Hp Hin.
  destruct (simpleRun_configures E a d nodes lnks Hc) as (t0 & d0 & -> & Hc0 & _).
  destruct (routes_and_session_run E (net_of E nodes) a d0 pths Hp Hin)
    as (t & -> & Hct).
  exists (t0 ++ t), d0. split; [done|].
  by rewrite host_cmds_app, Hc0, Hct, app_assoc.
Qed.

Lemma flat_map_lookup_block {X Y} (f : X → list Y) c l :
  (∀ x, length (f x) = c) →
  ∀ n x k y, l !! n = Some x → f x !! k = Some y →
             flat_map f l !! (c * n + k) = Some y.
Proof.
  intros Hlen. induction l as [|x0 l IH]; intros n x k y Hn Hk; [done|].
  simpl. destruct n as [|n]; simpl in Hn.
  - injection Hn as ->. rewrite Nat.mul_0_r. simpl.
    rewrite lookup_app_l; [done|]. by apply lookup_lt_Some in Hk.
  - rewrite lookup_app_r; rewrite (Hlen x0); [|lia].
    replace (c * S n + k - c) with (c * n + k) by lia. by eapply IH.
Qed.

Lemma loopback_cmds_length v4 r : length (loopback_cmds v4 r) = 6.
Proof. by destruct r. Qed.

Lemma loopback_cmds_shape v4 r :
  loopback_cmds v4 r =
    (r.1, loopback_addr_cmd v4 r.2) :: ((λ c, (r.1, c)) <$> global_forwarding_cmds).
Proof. by destruct r. Qed.

(** C2 (as amended): on a run that completes, the commands sent to the
    hosts are, in order, those of the node records, those of the link
    records and those of the path records.  For the n-th node record the
    loopback address is assigned first (position 6n) and the five commands
    that enable forwarding globally and on the loopback interface follow it
    (positions 6n+1 to 6n+5); for a link record the three commands that
    enable forwarding on the interface come before the address of the
    interface. *)
Theorem loopback_address_then_forwarding E a d nodes lnks pths :
  configurable E a d nodes lnks →
  file_records E (paths a) path_record = Some pths →
  Forall (λ r, path_host r ∈ net_of E nodes) pths →
  outcome (simpleRun E a d) = Returned tt ∧
  host_cmds (trace (simpleRun E a d))
    = flat_map (loopback_cmds (ipv4 a)) nodes
        ++ flat_map (interface_cmds (traces a) (ipv4 a)) lnks
        ++ flat_map (route_cmds (ipv4 a)) pths ∧
  ∀ n r, nodes !! n = Some r →
    host_cmds (trace (simpleRun E a d)) !! (6 * n)
      = Some (r.1, loopback_addr_cmd (ipv4 a) r.2) ∧
    ∀ k c, global_forwarding_cmds !! k = Some c →
      host_cmds (trace (simpleRun E a d)) !! (6 * n + 1 + k) = Some (r.1, c).
Proof.
  intros Hc Hp Hin.
  destruct (simpleRun_ok E a d nodes lnks pths Hc Hp Hin) as (t & d' & -> & Ht).
  cbn [trace outcome]. split_and!; [done | done |].
  intros n r Hn. rewrite Ht.
  assert (∀ k y, loopback_cmds (ipv4 a) r !! k = Some y →
            (flat_map (loopback_cmds (ipv4 a)) nodes
               ++ flat_map (interface_cmds (traces a) (ipv4 a)) lnks
               ++ flat_map (route_cmds (ipv4 a)) pths) !! (6 * n + k) = Some y) as Hblock.
  { intros k y Hk.
    pose proof (flat_map_lookup_block (loopback_cmds (ipv4 a)) 6 nodes
                  (loopback_cmds_length _) n r k y Hn Hk) as H.
    rewrite lookup_app_l; [done|]. by apply lookup_lt_Some in H. }
  split.
  - rewrite <- (Nat.add_0_r (6 * n)). apply Hblock.
    by rewrite loopback_cmds_shape.
  - intros k c Hk. rewrite <- Nat.add_assoc. apply Hblock.
    rewrite loopback_cmds_shape. cbn [lookup list_lookup Nat.add].
    change (((λ c0, (r.1, c0)) <$> global_forwarding_cmds) !! k = Some (r.1, c)).
    by rewrite list_lookup_fmap, Hk.
Qed.

Lemma example_configurable tr v4 :
  configurable example_env (example_args tr v4) Absent
    [("A", "10.0.0.1/32"); ("B", "10.0.0.2/32")]
    [("A", "B", "0", "10.0.0.5/30", "10.0.0.2/32");
     ("B", "A", "0", "10.0.0.6/30", "10.0.0.1/32")].
Proof.
  constructor.
  - vm_compute; reflexivity.
  - vm_compute; reflexivity.
  - repeat constructor; simpl; rewrite list_elem_of_In; simpl; tauto.
  - done.
Defined.

Lemma loopback_address_then_forwarding_witness :
  host_cmds (trace (simpleRun example_env (example_args false false) Absent)) !! 0
    = Some ("A", "ip -6 addr add 10.0.0.1/32 dev lo").
Proof.
  refine (proj1 (proj2 (proj2 (loopback_address_then_forwarding example_env
            (example_args false false) Absent _ _
            [("A", "0", "10.0.0.6", "10.0.0.2/32")]
            (example_configurable false false) _ _)) 0 ("A", "10.0.0.1/32") _)).
  - vm_compute; reflexivity.
  - repeat constructor.
  - reflexivity.
Defined.

(** C2 fails as stated: host [A] of the example gets its loopback address
    (position 0) before the first command that enables forwarding
    (position 1). *)
Lemma loopback_address_precedes_forwarding :
  ¬ forwarding_before_addresses
      (trace (simpleRun example_env (example_args false false) Absent)).
Proof.
  intros H.
  specialize (H "A" 1 0 "sysctl net.ipv4.ip_forward=1"
                "ip -6 addr add 10.0.0.1/32 dev lo").
  assert (1 < 0); [|lia].
  apply H; vm_compute; reflexivity.
Qed.

(** ** References to hosts that are not there *)

Lemma connect_loop_unknown all_nodes pre r post self d :
  Forall (λ r, known all_nodes (endpoints r)) pre →
  ¬ (is_Some (all_nodes !! (endpoints r).1) ∧ is_Some (all_nodes !! (endpoints r).2)) →
  for_each (connect all_nodes) (self, ∅) (pre ++ r :: post) d =
    Run (link_event <$> new_links ∅ (endpoints <$> pre)) d
        (Raised (KeyError (missing_endpoint all_nodes (endpoints r)))).
Proof.
  intros Hpre Hr.
  destruct (connect_links_run all_nodes pre self ∅ d Hpre)
    as (self' & seen' & Hrun & _ & Hsub).
  assert (∀ p, p ∈ seen' → known all_nodes p) as Hseen.
  { intros p Hp. destruct (Hsub p Hp) as [Hin|Hin]; [by apply elem_of_empty in Hin|].
    apply list_elem_of_fmap in Hin as (r' & -> & Hin).
    rewrite Forall_forall in Hpre. by apply Hpre. }
  assert (endpoints r ∉ seen') as Hnin.
  { intros Hin. apply Hseen in Hin as [H1 H2]. apply Hr. by rewrite H1, H2. }
  rewrite for_each_app, (bind_prepend _ _ _ _ _ _ Hrun). cbv beta.
  rewrite for_each_cons.
  rewrite (bind_raised_eq _ _ _ _ _ _ (connect_unknown all_nodes self' seen' r d Hnin Hseen Hr)).
  unfold prepend. simpl. by rewrite app_nil_r.
Qed.

Lemma missing_endpoint_unknown nodes p :
  ¬ (p.1 ∈ nodes.*1 ∧ p.2 ∈ nodes.*1) →
  (missing_endpoint (nodes_dict ∅ nodes) p = p.1
     ∨ missing_endpoint (nodes_dict ∅ nodes) p = p.2) ∧
  missing_endpoint (nodes_dict ∅ nodes) p ∉ nodes.*1.
Proof.
  intros Hp. unfold missing_endpoint. rewrite nodes_dict_lookup.
  case_bool_decide as H1; [|auto]. split; [auto|]. tauto.
Qed.

Lemma build_unknown E self a d nodes pre r post :
  file_records E (loopbacks a) node_record = Some nodes →
  file_records E (links a) link_record = Some (pre ++ r :: post) →
  Forall (λ r, (endpoints r).1 ∈ nodes.*1 ∧ (endpoints r).2 ∈ nodes.*1) pre →
  ¬ ((endpoints r).1 ∈ nodes.*1 ∧ (endpoints r).2 ∈ nodes.*1) →
  build E self a d =
    Run ((node_event <$> nodes) ++ (link_event <$> new_links ∅ (endpoints <$> pre)))
        d (Raised (KeyError (missing_endpoint (nodes_dict ∅ nodes) (endpoints r)))).
Proof.
  intros Hn Hl Hpre Hr.
  apply file_records_some in Hn as (ntxt & Hf1 & Hn).
  apply file_records_some in Hl as (ltxt & Hf2 & Hl).
  assert (for_each (build_link (nodes_dict ∅ nodes)) (nodes_topo self nodes, ∅)
            (split newline ltxt) d
          = Run (link_event <$> new_links ∅ (endpoints <$> pre)) d
              (Raised (KeyError (missing_endpoint (nodes_dict ∅ nodes) (endpoints r)))))
    as Hloop.
  { rewrite (for_each_records link_record unpack5 (connect (nodes_dict ∅ nodes))
               (build_link (nodes_dict ∅ nodes)) (build_link_eq _) unpack5_some
               ltxt _ Hl).
    apply connect_loop_unknown.
    - eapply Forall_impl; [exact Hpre|]. intros r' [H1 H2]. unfold known.
      rewrite !nodes_dict_lookup. by rewrite !bool_decide_eq_true_2.
    - intros [[v1 H1] [v2 H2]]. apply Hr. rewrite !nodes_dict_lookup in H1, H2.
      split; [clear H2; case_bool_decide | clear H1; case_bool_decide]; done. }
  unfold build.
  rewrite (bind_prepend _ _ _ _ _ _ (read_lines_run _ _ _ d Hf1)). cbv beta.
  rewrite (bind_prepend _ _ _ _ _ _ (build_nodes_run _ _ self ∅ d Hn)). cbv beta.
  rewrite (bind_prepend _ _ _ _ _ _ (read_lines_run _ _ _ d Hf2)). cbv beta.
  rewrite (bind_raised_eq _ _ _ _ _ _ Hloop).
  by rewrite prepend_nil.
Qed.

(** C7 (as amended): a link record with an endpoint that the node file does
    not have stops the construction of the topology with [KeyError] for
    that id: the engine is not started and no host gets a command.  A path
    record for a host that the engine does not know stops the run with
    [KeyError] at that record: the routes of the records before it are
    installed already, its own route and the later ones are not. *)
Theorem unknown_node_stops_run E a d nodes :
  file_records E (loopbacks a) node_record = Some nodes →
  (∀ pre r post,
     file_records E (links a) link_record = Some (pre ++ r :: post) →
     Forall (λ r, (endpoints r).1 ∈ nodes.*1 ∧ (endpoints r).2 ∈ nodes.*1) pre →
     ¬ ((endpoints r).1 ∈ nodes.*1 ∧ (endpoints r).2 ∈ nodes.*1) →
     ∃ t k,
       simpleRun E a d = Run t d (Raised (KeyError k)) ∧
       (k = (endpoints r).1 ∨ k = (endpoints r).2) ∧ (k ∉ nodes.*1) ∧
       host_cmds t = [] ∧ (NetStart ∉ t) ∧
       links_created t = new_links ∅ (endpoints <$> pre)) ∧
  (∀ lnks pre r post,
     configurable E a d nodes lnks →
     file_records E (paths a) path_record = Some (pre ++ r :: post) →
     Forall (λ r, path_host r ∈ net_of E nodes) pre →
     path_host r ∉ net_of E nodes →
     ∃ t d',
       simpleRun E a d = Run t d' (Raised (KeyError (path_host r))) ∧
       host_cmds t = flat_map (loopback_cmds (ipv4 a)) nodes
                       ++ flat_map (interface_cmds (traces a) (ipv4 a)) lnks
                       ++ flat_map (route_cmds (ipv4 a)) pre).
Proof.
  intros Hn. split.
  - intros pre r post Hl Hpre Hr.
    pose proof (build_unknown E empty_topo a d nodes pre r post Hn Hl Hpre Hr)
      as Hbuild.
    destruct (missing_endpoint_unknown nodes (endpoints r) Hr) as [Hk Hnin].
    eexists _, _. split_and!; [|exact Hk|exact Hnin| | |].
    + unfold simpleRun.
      rewrite (bind_prepend _ _ _ _ _ _ (emit_run _ d)). cbv beta.
      rewrite (bind_raised_eq _ _ _ _ _ _ Hbuild). reflexivity.
    + simpl. rewrite host_cmds_app.
      rewrite (topology_no_cmd _ (node_events_topology nodes)).
      by rewrite (topology_no_cmd _ (link_events_topology _)).
    + simpl. intros Hin. apply elem_of_cons in Hin as [?|Hin]; [done|].
      apply elem_of_app in Hin as [Hin|Hin];
        apply list_elem_of_fmap in Hin as (x & Hx & _); by destruct x.
    + simpl. rewrite links_created_app, links_created_nodes.
      by rewrite links_created_links.
  - intros lnks pre r post Hc Hp Hpre Hr.
    destruct (simpleRun_configures E a d nodes lnks Hc) as (t0 & d0 & -> & Hc0 & _).
    destruct (routes_and_session_unknown E (net_of E nodes) a d0 pre r post Hp Hpre Hr)
      as (t & -> & Hct).
    exists (t0 ++ t), d0. split; [done|].
    by rewrite host_cmds_app, Hc0, Hct, app_assoc.
Qed.

Lemma unknown_node_stops_run_witness :
  ∃ t d',
    simpleRun unknown_host_env (example_args false false) Absent
      = Run t d' (Raised (KeyError "Z")) ∧
    host_cmds t
      = flat_map (loopback_cmds false) [("A", "10.0.0.1/32"); ("B", "10.0.0.2/32")]
          ++ flat_map (interface_cmds false false)
               [("A", "B", "0", "10.0.0.5/30", "10.0.0.2/32");
                ("B", "A", "0", "10.0.0.6/30", "10.0.0.1/32")]
          ++ flat_map (route_cmds false) [("A", "0", "10.0.0.6", "10.0.0.2/32")].
Proof.
  refine (proj2 (unknown_node_stops_run unknown_host_env (example_args false false)
            Absent [("A", "10.0.0.1/32"); ("B", "10.0.0.2/32")] _)
            [("A", "B", "0", "10.0.0.5/30", "10.0.0.2/32");
             ("B", "A", "0", "10.0.0.6/30", "10.0.0.1/32")]
            [("A", "0", "10.0.0.6", "10.0.0.2/32")]
            ("Z", "0", "10.0.0.6", "10.0.0.9/32") [] _ _ _ _).
  - vm_compute; reflexivity.
  - constructor.
    + vm_compute; reflexivity.
    + vm_compute; reflexivity.
    + repeat constructor; simpl; rewrite list_elem_of_In; simpl; tauto.
    + done.
  - vm_compute; reflexivity.
  - repeat constructor.
  - vm_compute. intros H. discriminate H.
Defined.

(** C7 fails as stated: with a path file whose second record is about the
    unknown host [Z], the run stops with the error for [Z] after the route
    of the first record has been installed. *)
Lemma route_installed_before_unknown_host :
  outcome (simpleRun unknown_host_env (example_args false false) Absent)
    = Raised (KeyError "Z") ∧
  ¬ Forall (not_cmd is_route_cmd)
      (trace (simpleRun unknown_host_env (example_args false false) Absent)).
Proof.
  split; [vm_compute; reflexivity|].
  intros H. rewrite Forall_forall in H.
  specialize (H (HostCmd "A" "ip -6 route add 10.0.0.2/32 via 10.0.0.6")).
  assert (not_cmd is_route_cmd (HostCmd "A" "ip -6 route add 10.0.0.2/32 via 10.0.0.6"))
    as Hno; [|by vm_compute in Hno].
  apply H. apply list_elem_of_lookup. exists 32. vm_compute. reflexivity.
Qed.

(** ** Lines with a wrong number of fields *)

Lemma bind_returned_inv {A B} (m : M A) (f : A → M B) d b :
  outcome ((m ≫= f) d) = Returned b →
  ∃ a, outcome (m d) = Returned a ∧ outcome (f a (dir_after (m d))) = Returned b.
Proof.
  unfold mbind, M_mbind, M_bind.
  destruct (outcome (m d)) as [e|a]; simpl; [done|]. intros H. by exists a.
Qed.

Lemma read_lines_returned E path d txt :
  outcome (read_lines E path d) = Returned txt →
  ∃ content, files E !! path = Some content ∧ txt = split newline content.
Proof.
  unfold read_lines. destruct (files E !! path) as [c|]; simpl; [|done].
  intros [= <-]. by exists c.
Qed.

Lemma node_record_fields line :
  is_Some (node_record line) ↔ length (split space line) = 2.
Proof.
  unfold node_record.
  destruct (split space line) as [|a [|b [|c fs]]]; simpl;
    (split; [intros [? ?]; congruence | intros ?; try lia; by eexists]).
Qed.

Lemma link_record_fields line :
  is_Some (link_record line) ↔ length (split space line) = 5.
Proof.
  unfold link_record.
  destruct (split space line) as [|a [|b [|c [|c1 [|c2 [|c3 fs]]]]]]; simpl;
    (split; [intros [? ?]; congruence | intros ?; try lia; by eexists]).
Qed.

Lemma path_record_fields line :
  is_Some (path_record line) ↔ length (split space line) = 4.
Proof.
  unfold path_record.
  destruct (split space line) as [|a [|b [|c [|c1 [|c2 fs]]]]]; simpl;
    (split; [intros [? ?]; congruence | intros ?; try lia; by eexists]).
Qed.

Lemma records_line {R} (parse : string → option R) content recs line :
  records parse content = Some recs →
  line ∈ nonblank_lines content → is_Some (parse line).
Proof.
  unfold records. intros H Hin. apply mapM_Some in H.
  revert Hin. induction H as [|x r ls rs Hx _ IH]; intros Hin.
  - by apply elem_of_nil in Hin.
  - apply elem_of_cons in Hin as [->|Hin]; [by eexists | auto].
Qed.

(** A run of a loop that completes has read a file whose lines all have the
    number of fields that the loop unpacks. *)
Lemma loop_returned {A R C} E path (parse : string → option R) unpack
    (step : A → R → M A) body expected acc d (k : A → M C) (u : C) :
  (∀ acc line, body acc line =
     if is_empty line then mret acc
     else fields ← unpack (split space line); step acc fields) →
  (∀ line, parse line = None →
     unpack (split space line)
       = raise (ValueError expected (length (split space line)))) →
  outcome ((txt ← read_lines E path; for_each body acc txt ≫= k) d) = Returned u →
  is_Some (file_records E path parse) ∧
  ∃ acc' d', outcome (k acc' d') = Returned u.
Proof.
  intros Hbody Hnone H.
  apply bind_returned_inv in H as (txt & Hread & H).
  apply read_lines_returned in Hread as (content & Hf & ->).
  apply bind_returned_inv in H as (acc' & Hloop & H).
  split; [|eauto].
  unfold file_records. rewrite Hf. simpl.
  by apply (for_each_returned parse unpack step body expected Hbody Hnone) in Hloop.
Qed.

Lemma build_returned E self a d topo :
  outcome (build E self a d) = Returned topo →
  is_Some (file_records E (loopbacks a) node_record) ∧
  is_Some (file_records E (links a) link_record).
Proof.
  unfold build. intros H.
  apply (loop_returned E _ node_record unpack2 register_node build_node 2)
    in H as [Hn ([self' all_nodes] & d' & H)];
    [|apply build_node_eq|apply unpack2_none].
  split; [done|].
  by apply (loop_returned E _ link_record unpack5 (connect all_nodes)
              (build_link all_nodes) 5) in H as [Hl _];
    [|apply build_link_eq|apply unpack5_none].
Qed.

Lemma simpleRun_returned E a d u :
  outcome (simpleRun E a d) = Returned u →
  is_Some (file_records E (loopbacks a) node_record) ∧
  is_Some (file_records E (links a) link_record) ∧
  is_Some (file_records E (paths a) path_record).
Proof.
  unfold simpleRun. intros H.
  apply bind_returned_inv in H as (_ & _ & H).
  apply bind_returned_inv in H as (topo & Hbuild & H).
  apply build_returned in Hbuild as [Hn Hl]. split_and!; [done | done |].
  apply bind_returned_inv in H as (net & _ & H).
  apply bind_returned_inv in H as (_ & _ & H).
  apply bind_returned_inv in H as (_ & _ & H).
  apply (loop_returned E _ node_record unpack2 (λ _, configure_loopback net (ipv4 a))
           (config_loopback net (ipv4 a)) 2) in H as [_ (_ & d1 & H)];
    [|apply config_loopback_eq|apply unpack2_none].
  apply (loop_returned E _ link_record unpack5
           (λ _, configure_interface net (traces a) (ipv4 a))
           (config_link net (traces a) (ipv4 a)) 5) in H as [_ (_ & d2 & H)];
    [|apply config_link_eq|apply unpack5_none].
  by apply (loop_returned E _ path_record unpack4 (λ _, add_route net (ipv4 a))
              (install_route net (ipv4 a)) 4) in H as [Hp _];
    [|apply install_route_eq|apply unpack4_none].
Qed.

Lemma malformed_line_not_parsed E a line :
  malformed_line E a line →
  file_records E (loopbacks a) node_record = None ∨
  file_records E (links a) link_record = None ∨
  file_records E (paths a) path_record = None.
Proof.
  intros (path & n & content & Hpn & Hf & Hin & Hlen).
  unfold expected_fields in Hpn.
  repeat (apply elem_of_cons in Hpn as [[= -> ->]|Hpn]);
    [| | |by apply elem_of_nil in Hpn].
  - left. unfold file_records. rewrite Hf. simpl.
    destruct (records node_record content) as [recs|] eqn:Hr; [|done].
    by apply (records_line _ _ _ _ Hr), node_record_fields in Hin.
  - right. left. unfold file_records. rewrite Hf. simpl.
    destruct (records link_record content) as [recs|] eqn:Hr; [|done].
    by apply (records_line _ _ _ _ Hr), link_record_fields in Hin.
  - right. right. unfold file_records. rewrite Hf. simpl.
    destruct (records path_record content) as [recs|] eqn:Hr; [|done].
    by apply (records_line _ _ _ _ Hr), path_record_fields in Hin.
Qed.

Lemma build_malformed_link E self a d nodes ltxt pre_lines bad post pre :
  file_records E (loopbacks a) node_record = Some nodes →
  files E !! links a = Some ltxt →
  nonblank_lines ltxt = pre_lines ++ bad :: post →
  mapM link_record pre_lines = Some pre →
  Forall (λ r, (endpoints r).1 ∈ nodes.*1 ∧ (endpoints r).2 ∈ nodes.*1) pre →
  length (split space bad) ≠ 5 →
  build E self a d =
    Run ((node_event <$> nodes) ++ (link_event <$> new_links ∅ (endpoints <$> pre)))
        d (Raised (ValueError 5 (length (split space bad)))).
Proof.
  intros Hn Hf2 Hlines Hpre Hk Hbad.
  apply file_records_some in Hn as (ntxt & Hf1 & Hn).
  destruct (connect_links_run (nodes_dict ∅ nodes) pre (nodes_topo self nodes) ∅ d)
    as (topo & seen & Hrun & _ & _).
  { eapply Forall_impl; [exact Hk|]. intros r [H1 H2]. unfold known.
    rewrite !nodes_dict_lookup. by rewrite !bool_decide_eq_true_2. }
  assert (link_record bad = None) as Hnone.
  { destruct (link_record bad) eqn:Hb; [|done].
    exfalso. apply Hbad, link_record_fields. by eexists. }
  pose proof (for_each_malformed link_record unpack5 (connect (nodes_dict ∅ nodes))
                (build_link (nodes_dict ∅ nodes)) 5 (build_link_eq _)
                unpack5_some unpack5_none
                (split newline ltxt) pre_lines bad post pre _ d _ d _
                Hlines Hpre Hnone Hrun) as Hloop.
  unfold build.
  rewrite (bind_prepend _ _ _ _ _ _ (read_lines_run _ _ _ d Hf1)). cbv beta.
  rewrite (bind_prepend _ _ _ _ _ _ (build_nodes_run _ _ self ∅ d Hn)). cbv beta.
  rewrite (bind_prepend _ _ _ _ _ _ (read_lines_run _ _ _ d Hf2)). cbv beta.
  rewrite (bind_raised_eq _ _ _ _ _ _ Hloop).
  by rewrite prepend_nil.
Qed.

(** C6 (as amended): a line with a wrong number of fields in any of the
    three files makes the run stop with an exception, so that it never
    completes.  The exception of the line itself is the [ValueError] of the
    tuple unpacking, which carries the expected and the actual number of
    fields and neither the file nor the line, and what was done before the
    line stands: for such a line in the link file, the hosts of the node
    file are registered and the links of the records before the line are
    created when the run stops. *)
Theorem malformed_line_stops_run E a d line :
  malformed_line E a line →
  (∃ e, outcome (simpleRun E a d) = Raised e) ∧
  ∀ nodes ltxt pre_lines post pre,
    file_records E (loopbacks a) node_record = Some nodes →
    files E !! links a = Some ltxt →
    nonblank_lines ltxt = pre_lines ++ line :: post →
    mapM link_record pre_lines = Some pre →
    Forall (λ r, (endpoints r).1 ∈ nodes.*1 ∧ (endpoints r).2 ∈ nodes.*1) pre →
    length (split space line) ≠ 5 →
    simpleRun E a d =
      Run (Print ("USE IPV4 " +:+ py_bool (ipv4 a))
             :: (node_event <$> nodes)
             ++ (link_event <$> new_links ∅ (endpoints <$> pre)))
          d (Raised (ValueError 5 (length (split space line)))).
Proof.
  intros Hbad. split.
  - destruct (outcome (simpleRun E a d)) as [e|u] eqn:Hout; [by exists e|].
    destruct u. apply simpleRun_returned in Hout as ([? Hn] & [? Hl] & [? Hp]).
    destruct (malformed_line_not_parsed E a line Hbad) as [H|[H|H]]; congruence.
  - intros nodes ltxt pre_lines post pre Hn Hf Hlines Hpre Hk Hlen.
    pose proof (build_malformed_link E empty_topo a d nodes ltxt pre_lines line
                  post pre Hn Hf Hlines Hpre Hk Hlen) as Hbuild.
    unfold simpleRun.
    rewrite (bind_prepend _ _ _ _ _ _ (emit_run _ d)). cbv beta.
    by rewrite (bind_raised_eq _ _ _ _ _ _ Hbuild).
Qed.

Lemma short_link_malformed :
  malformed_line short_link_env (example_args false false) "A B 0 10.0.0.5/30".
Proof.
  exists "links", 5, "A B 0 10.0.0.5/30". split_and!.
  - right. left.
  - vm_compute; reflexivity.
  - apply list_elem_of_In. vm_compute. by left.
  - vm_compute. lia.
Defined.

Lemma malformed_line_stops_run_witness :
  simpleRun short_link_env (example_args false false) Absent =
    Run [Print "USE IPV4 False";
         AddHost "A" "10.0.0.1/32" "00:00:00:00:00:A";
         AddHost "B" "10.0.0.2/32" "00:00:00:00:00:B"]
        Absent (Raised (ValueError 5 4)).
Proof.
  refine (proj2 (malformed_line_stops_run short_link_env (example_args false false)
            Absent "A B 0 10.0.0.5/30" short_link_malformed)
            [("A", "10.0.0.1/32"); ("B", "10.0.0.2/32")]
            "A B 0 10.0.0.5/30" [] [] [] _ _ _ _ _ _).
  - vm_compute; reflexivity.
  - vm_compute; reflexivity.
  - vm_compute; reflexivity.
  - reflexivity.
  - constructor.
  - vm_compute. lia.
Defined.

(** C6 fails as stated: a link file whose only line has four fields stops
    the run with an error that names neither the file nor the line, after
    the two hosts of the node file have been registered. *)
Lemma malformed_link_keeps_hosts :
  malformed_line short_link_env (example_args false false) "A B 0 10.0.0.5/30" ∧
  outcome (simpleRun short_link_env (example_args false false) Absent)
    = Raised (ValueError 5 4) ∧
  hosts_registered (trace (simpleRun short_link_env (example_args false false) Absent))
    ≠ [].
Proof.
  split_and!; [apply short_link_malformed | vm_compute; reflexivity |].
  vm_compute. discriminate.
Qed.

(** ** Blank lines *)

Lemma read_loop_ext {A R C} E E' path (unpack : list string → M R)
    (step : A → R → M A) body acc (k k' : A → M C) :
  (∀ acc line, body acc line =
     if is_empty line then mret acc
     else fields ← unpack (split space line); step acc fields) →
  same_nonblank E E' path →
  (∀ acc d, k acc d = k' acc d) →
  ∀ d, (txt ← read_lines E path; for_each body acc txt ≫= k) d
     = (txt ← read_lines E' path; for_each body acc txt ≫= k') d.
Proof.
  intros Hbody Hsame Hk d. unfold same_nonblank in Hsame. unfold read_lines.
  destruct (files E !! path) as [c|], (files E' !! path) as [c'|];
    simpl in Hsame; try done.
  injection Hsame as Hsame. rewrite !bind_ret_run.
  apply bind_ext; [|done]. intros d0.
  rewrite (for_each_nonblank unpack step body Hbody (split newline c)).
  rewrite (for_each_nonblank unpack step body Hbody (split newline c')).
  unfold nonblank_lines in Hsame. by rewrite Hsame.
Qed.

Lemma build_ext E E' self a :
  same_nonblank E E' (loopbacks a) → same_nonblank E E' (links a) →
  ∀ d, build E self a d = build E' self a d.
Proof.
  intros H1 H2. unfold build.
  apply (read_loop_ext E E' _ unpack2 register_node build_node);
    [apply build_node_eq | done |].
  intros [self' all_nodes].
  apply (read_loop_ext E E' _ unpack5 (connect all_nodes) (build_link all_nodes));
    [apply build_link_eq | done | done].
Qed.

(** C9: blank (empty) lines are skipped in every file: two sets of input
    files that differ only in their blank lines give the same run, with the
    same calls in the same order and the same outcome. *)
Theorem blank_lines_skipped E E' a d :
  engine_nodes E = engine_nodes E' →
  same_nonblank E E' (loopbacks a) →
  same_nonblank E E' (links a) →
  same_nonblank E E' (paths a) →
  simpleRun E a d = simpleRun E' a d.
Proof.
  intros He H1 H2 H3. revert d. unfold simpleRun.
  apply bind_ext; [done|]. intros _.
  apply bind_ext; [by apply build_ext|]. intros topo.
  apply bind_ext; [intros d; unfold Mininet; by rewrite He|]. intros net.
  apply bind_ext; [done|]. intros _.
  apply bind_ext; [done|]. intros _.
  apply (read_loop_ext E E' _ unpack2 (λ _, configure_loopback net (ipv4 a))
           (config_loopback net (ipv4 a)));
    [apply config_loopback_eq | done |]. intros _.
  apply (read_loop_ext E E' _ unpack5
           (λ _, configure_interface net (traces a) (ipv4 a))
           (config_link net (traces a) (ipv4 a)));
    [apply config_link_eq | done |]. intros _.
  apply (read_loop_ext E E' _ unpack4 (λ _, add_route net (ipv4 a))
           (install_route net (ipv4 a)));
    [apply install_route_eq | done | done].
Qed.

Lemma blank_lines_skipped_witness :
  simpleRun blank_lines_env (example_args true false) Absent
    = simpleRun example_env (example_args true false) Absent.
Proof.
  apply blank_lines_skipped; vm_compute; reflexivity.
Defined.

(** ** Captures *)


Lemma prefix_cons a s1 b s2 :
  String.prefix (String a s1) (String b s2)
    = if Ascii.ascii_dec a b then String.prefix s1 s2 else false.
Proof. done. Qed.






(** The walk tells the files of the capture directory from the others
    also where a path is not in its shortest form. *)
Lemma inside_pcap_dir_walk :
  let cwd := ["home"; "user"] in
  inside_pcap_dir cwd "pcaps/A-0.pcap" = true ∧
  inside_pcap_dir cwd "./pcaps/A-0.pcap" = true ∧
  inside_pcap_dir cwd "/home/user/pcaps/old/A-0.pcap" = true ∧
  inside_pcap_dir cwd "pcaps/../A-0.pcap" = false ∧
  inside_pcap_dir cwd "../pcaps/A-0.pcap" = false ∧
  inside_pcap_dir cwd "pcaps" = false.
Proof. by vm_compute. Qed.




(** C4 fails on the code: on a run that configures its interfaces with
    captures asked for, the capture directory is created once for every
    link record, not once for the run. *)
Theorem pcap_dir_reset_per_link_record E a d nodes lnks :
  configurable E a d nodes lnks →
  traces a = true →
  length (pcap_dir_resets (trace (simpleRun E a d))) = length lnks.
Proof.
  intros Hc Htr.
  destruct (simpleRun_configures E a d nodes lnks Hc)
    as (t0 & d0 & -> & _ & _ & _ & Hn).
  unfold prepend. cbn [trace].
  rewrite pcap_dir_resets_app, length_app, Hn, Htr.
  rewrite (no_resets _ (routes_and_session_no_reset E _ a d0)). simpl. lia.
Qed.

Lemma pcap_dir_reset_per_link_record_witness :
  length (pcap_dir_resets
            (trace (simpleRun example_env (example_args true false) Absent))) = 2.
Proof.
  exact (pcap_dir_reset_per_link_record example_env (example_args true false)
           Absent _ _ (example_configurable true false) eq_refl).
Defined.

(** On the example of the specification, the directory is removed and
    created again (positions 33 and 34) after the first capture has been
    started (position 27). *)
Lemma pcap_dir_reset_after_capture :
  trace (simpleRun example_env (example_args true false) Absent) !! 27
    = Some (HostCmd "A" (capture_cmd "A" "0")) ∧
  trace (simpleRun example_env (example_args true false) Absent) !! 33
    = Some (Rmtree PCAP_DIR) ∧
  trace (simpleRun example_env (example_args true false) Absent) !! 34
    = Some (Makedirs PCAP_DIR).
Proof. split_and!; vm_compute; reflexivity. Qed.

(** * Further properties *)

(** ** Missing files *)

Lemma read_lines_absent E path d :
  files E !! path = None →
  read_lines E path d = Run [] d (Raised (FileNotFoundError path)).
Proof. intros H. unfold read_lines. by rewrite H. Qed.

(** X1: when the node file cannot be opened, the run stops at once with
    [FileNotFoundError]: only the line of [print] is out, no host is
    registered and the engine is not called. *)
Theorem missing_node_file E a d :
  files E !! loopbacks a = None →
  simpleRun E a d =
    Run [Print ("USE IPV4 " +:+ py_bool (ipv4 a))] d
        (Raised (FileNotFoundError (loopbacks a))).
Proof.
  intros Hf. unfold simpleRun, build.
  rewrite (bind_prepend _ _ _ _ _ _ (emit_run _ d)). cbv beta.
  rewrite (bind_raised_eq _ _ _ _ _ _
             (bind_raised_eq _ _ _ _ _ _ (read_lines_absent _ _ d Hf))).
  reflexivity.
Qed.

Lemma missing_node_file_witness :
  simpleRun (Env ∅ ∅) (example_args false false) Absent =
    Run [Print "USE IPV4 False"] Absent (Raised (FileNotFoundError "nodes")).
Proof.
  apply (missing_node_file (Env ∅ ∅) (example_args false false) Absent).
  reflexivity.
Defined.

(** X2: when the node file is well-formed and the link file cannot be
    opened, every host of the node file is registered and then the run
    stops with [FileNotFoundError], before the engine is started. *)
Theorem missing_link_file E a d nodes :
  file_records E (loopbacks a) node_record = Some nodes →
  files E !! links a = None →
  simpleRun E a d =
    Run (Print ("USE IPV4 " +:+ py_bool (ipv4 a)) :: (node_event <$> nodes)) d
        (Raised (FileNotFoundError (links a))).
Proof.
  intros Hn Hf2. apply file_records_some in Hn as (ntxt & Hf1 & Hn).
  assert (build E empty_topo a d =
          Run (node_event <$> nodes) d (Raised (FileNotFoundError (links a))))
    as Hbuild.
  { unfold build.
    rewrite (bind_prepend _ _ _ _ _ _ (read_lines_run _ _ _ d Hf1)). cbv beta.
    rewrite (bind_prepend _ _ _ _ _ _ (build_nodes_run _ _ empty_topo ∅ d Hn)).
    cbv beta.
    rewrite (bind_raised_eq _ _ _ _ _ _ (read_lines_absent _ _ d Hf2)).
    unfold prepend. simpl. by rewrite app_nil_r. }
  unfold simpleRun.
  rewrite (bind_prepend _ _ _ _ _ _ (emit_run _ d)). cbv beta.
  by rewrite (bind_raised_eq _ _ _ _ _ _ Hbuild).
Qed.

Lemma missing_link_file_witness :
  simpleRun (Env (<["nodes" := example_nodes]> ∅) ∅) (example_args false false)
    Absent =
    Run [Print "USE IPV4 False";
         AddHost "A" "10.0.0.1/32" "00:00:00:00:00:A";
         AddHost "B" "10.0.0.2/32" "00:00:00:00:00:B"]
        Absent (Raised (FileNotFoundError "links")).
Proof.
  apply (missing_link_file (Env (<["nodes" := example_nodes]> ∅) ∅)
           (example_args false false) Absent
           [("A", "10.0.0.1/32"); ("B", "10.0.0.2/32")]);
    vm_compute; reflexivity.
Defined.

(** ** The interactive session *)

Lemma ends_with_session_bind {A} (m : M A) (f : A → M unit) :
  trace_all before_session m → (∀ a, ends_with_session (f a)) →
  ends_with_session (m ≫= f).
Proof.
  intros Hm Hf d. specialize (Hm d).
  destruct (outcome (m d)) as [e|x] eqn:Hout.
  - right. exists e. by rewrite (bind_raised _ _ _ e Hout).
  - rewrite (bind_returned _ _ _ x Hout). simpl.
    destruct (Hf x (dir_after (m d))) as [(t & Heq & Ht)|(e & He & Ht)].
    + left. exists (trace (m d) ++ t). split; [|by apply Forall_app].
      pose proof (f_equal trace Heq) as Htr.
      pose proof (f_equal outcome Heq) as Hres. simpl in Htr, Hres.
      by rewrite Htr, Hres, app_assoc.
    + right. exists e. split; [done|by apply Forall_app].
Qed.

Lemma session_ends_with_session : ends_with_session (emit StartCLI;; emit NetStop).
Proof. intros d. left. exists []. split; [reflexivity | constructor]. Qed.

Lemma config_loopback_before_session net v4 acc line :
  trace_all before_session (config_loopback net v4 acc line).
Proof. unfold config_loopback, configure_loopback. repeat trace_all_step; done. Qed.

Lemma config_link_before_session net tr v4 acc line :
  trace_all before_session (config_link net tr v4 acc line).
Proof.
  unfold config_link, configure_interface, reset_pcap_dir.
  repeat trace_all_step; done.
Qed.

Lemma install_route_before_session net v4 acc line :
  trace_all before_session (install_route net v4 acc line).
Proof. unfold install_route, add_route. repeat trace_all_step; done. Qed.

Lemma simpleRun_ends_with_session E a : ends_with_session (simpleRun E a).
Proof.
  unfold simpleRun.
  do 11 (apply ends_with_session_bind;
         [ repeat trace_all_step; try done;
           first [ by apply trace_all_build
                 | apply config_loopback_before_session
                 | apply config_link_before_session
                 | apply install_route_before_session ]
         | intros ? ]).
  apply session_ends_with_session.
Qed.

(** X14: a run that completes has opened the interactive session and
    stopped the network as its last two calls, after everything else; a
    run that stops with an exception has not opened the session. *)
Theorem session_only_after_configuration E a d :
  match outcome (simpleRun E a d) with
  | Returned _ =>
      ∃ t, trace (simpleRun E a d) = t ++ [StartCLI; NetStop] ∧
           Forall before_session t
  | Raised _ => StartCLI ∉ trace (simpleRun E a d)
  end.
Proof.
  destruct (simpleRun_ends_with_session E a d) as [(t & Heq & Ht)|(e & He & Ht)].
  - rewrite Heq. simpl. by exists t.
  - rewrite He. intros Hin. rewrite Forall_forall in Ht.
    by destruct (Ht _ Hin).
Qed.

(** X3: when the hosts and interfaces can be configured and the path file
    cannot be opened, the run stops with [FileNotFoundError] after all the
    commands of the node and link records: no route is installed and the
    interactive session is not opened. *)
Theorem missing_path_file E a d nodes lnks :
  configurable E a d nodes lnks →
  files E !! paths a = None →
  ∃ t d',
    simpleRun E a d = Run t d' (Raised (FileNotFoundError (paths a))) ∧
    host_cmds t = flat_map (loopback_cmds (ipv4 a)) nodes
                    ++ flat_map (interface_cmds (traces a) (ipv4 a)) lnks ∧
    StartCLI ∉ t.
Proof.
  intros Hc Hf.
  destruct (simpleRun_configures E a d nodes lnks Hc)
    as (t0 & d0 & Hrun & Hc0 & Hh0 & _).
  assert (routes_and_session E (net_of E nodes) a d0 =
          Run [] d0 (Raised (FileNotFoundError (paths a)))) as Hrest.
  { unfold routes_and_session.
    by rewrite (bind_raised_eq _ _ _ _ _ _ (read_lines_absent _ _ d0 Hf)). }
  exists t0, d0. rewrite Hrun, Hrest. unfold prepend. simpl. rewrite app_nil_r.
  split_and!; [done | done |].
  destruct (simpleRun_ends_with_session E a d) as [(t & Heq & _)|(e & _ & Ht)].
  - rewrite Hrun, Hrest in Heq. discriminate Heq.
  - rewrite Hrun, Hrest in Ht. unfold prepend in Ht. simpl in Ht.
    rewrite app_nil_r in Ht. intros Hin. rewrite Forall_forall in Ht.
    by destruct (Ht _ Hin).
Qed.

Lemma missing_path_file_witness :
  ∃ t d',
    simpleRun (Env (delete "paths" example_files) ∅) (example_args false false)
      Absent = Run t d' (Raised (FileNotFoundError "paths")) ∧
    host_cmds t
      = flat_map (loopback_cmds false) [("A", "10.0.0.1/32"); ("B", "10.0.0.2/32")]
          ++ flat_map (interface_cmds false false)
               [("A", "B", "0", "10.0.0.5/30", "10.0.0.2/32");
                ("B", "A", "0", "10.0.0.6/30", "10.0.0.1/32")] ∧
    StartCLI ∉ t.
Proof.
  apply (missing_path_file (Env (delete "paths" example_files) ∅)
           (example_args false false) Absent).
  - constructor.
    + vm_compute; reflexivity.
    + vm_compute; reflexivity.
    + repeat constructor; simpl; rewrite list_elem_of_In; simpl; tauto.
    + done.
  - vm_compute; reflexivity.
Defined.

(** ** The capture directory *)

Lemma keeps_dir_ret {A} (a : A) : keeps_dir (mret a).
Proof. done. Qed.

Lemma keeps_dir_raise {A} e : keeps_dir (raise (A:=A) e).
Proof. done. Qed.

Lemma keeps_dir_emit e : keeps_dir (emit e).
Proof. done. Qed.

Lemma keeps_dir_bind {A B} (m : M A) (f : A → M B) :
  keeps_dir m → (∀ a, keeps_dir (f a)) → keeps_dir (m ≫= f).
Proof.
  intros Hm Hf d. unfold mbind, M_mbind, M_bind. specialize (Hm d).
  destruct (outcome (m d)); simpl; [done|]. by rewrite Hf.
Qed.

Lemma keeps_dir_for_each {A B} (body : A → B → M A) xs :
  (∀ acc x, keeps_dir (body acc x)) → ∀ acc, keeps_dir (for_each body acc xs).
Proof.
  intros Hb. induction xs as [|x xs IH]; intros acc; simpl.
  - apply keeps_dir_ret.
  - apply keeps_dir_bind; auto.
Qed.

Lemma keeps_dir_read_lines E path : keeps_dir (read_lines E path).
Proof. unfold read_lines. by destruct (files E !! path). Qed.

Lemma keeps_dir_unpack2 fs : keeps_dir (unpack2 fs).
Proof. unfold unpack2. by destruct fs as [|a [|b [|c fs]]]. Qed.

Lemma keeps_dir_unpack4 fs : keeps_dir (unpack4 fs).
Proof. unfold unpack4. by destruct fs as [|a [|b [|c [|c' [|c'' fs]]]]]. Qed.

Lemma keeps_dir_unpack5 fs : keeps_dir (unpack5 fs).
Proof.
  unfold unpack5. by destruct fs as [|a [|b [|c [|c' [|c'' [|c''' fs]]]]]].
Qed.

Lemma keeps_dir_getitem m k : keeps_dir (getitem m k).
Proof. unfold getitem. by destruct (m !! k). Qed.

Lemma keeps_dir_net_cmd net name cmd : keeps_dir (net_cmd net name cmd).
Proof. intros d. rewrite net_cmd_run. by case_bool_decide. Qed.

(** Splits a computation along its binds, as [trace_all_step] does. *)
Ltac keeps_dir_step :=
  lazymatch goal with
  | |- keeps_dir (match ?x with _ => _ end) => destruct x
  | |- keeps_dir (if ?b then _ else _) => destruct b
  | |- keeps_dir (let _ := _ in _) => cbv zeta
  | |- keeps_dir (_ ≫= _) => apply keeps_dir_bind; [| intros ?]
  | |- keeps_dir (mret _) => apply keeps_dir_ret
  | |- keeps_dir (raise _) => apply keeps_dir_raise
  | |- keeps_dir (emit _) => apply keeps_dir_emit
  | |- keeps_dir (read_lines _ _) => apply keeps_dir_read_lines
  | |- keeps_dir (unpack2 _) => apply keeps_dir_unpack2
  | |- keeps_dir (unpack4 _) => apply keeps_dir_unpack4
  | |- keeps_dir (unpack5 _) => apply keeps_dir_unpack5
  | |- keeps_dir (getitem _ _) => apply keeps_dir_getitem
  | |- keeps_dir (net_cmd _ _ _) => apply keeps_dir_net_cmd
  | |- keeps_dir (Mininet _ _) => unfold Mininet
  | |- keeps_dir (for_each _ _ _) => apply keeps_dir_for_each; intros ? ?
  end.

Lemma keeps_dir_build E self a : keeps_dir (build E self a).
Proof.
  unfold build. repeat keeps_dir_step.
  - unfold build_node, register_node, addHost. repeat keeps_dir_step.
  - unfold build_link, connect, addLink. repeat keeps_dir_step.
Qed.

Lemma keeps_dir_config_loopback net v4 acc line :
  keeps_dir (config_loopback net v4 acc line).
Proof. unfold config_loopback, configure_loopback. repeat keeps_dir_step. Qed.

Lemma keeps_dir_config_link_off net v4 acc line :
  keeps_dir (config_link net false v4 acc line).
Proof. unfold config_link, configure_interface. repeat keeps_dir_step. Qed.

Lemma keeps_dir_install_route net v4 acc line :
  keeps_dir (install_route net v4 acc line).
Proof. unfold install_route, add_route. repeat keeps_dir_step. Qed.

Lemma keeps_dir_routes_and_session E net a :
  keeps_dir (routes_and_session E net a).
Proof.
  unfold routes_and_session. repeat keeps_dir_step.
  apply keeps_dir_install_route.
Qed.

Lemma config_loopback_capture_free net v4 acc line :
  trace_all capture_free (config_loopback net v4 acc line).
Proof. unfold config_loopback, configure_loopback. destruct v4; trace_all_body. Qed.

Lemma config_link_capture_free net v4 acc line :
  trace_all capture_free (config_link net false v4 acc line).
Proof. unfold config_link, configure_interface. destruct v4; trace_all_body. Qed.

Lemma install_route_capture_free net v4 acc line :
  trace_all capture_free (install_route net v4 acc line).
Proof. unfold install_route, add_route. destruct v4; trace_all_body. Qed.

(** X5: when captures are not asked for, no run touches the capture
    directory or starts a capture: the status of [pcaps] after the run is
    the status before it, whatever the files hold and however the run ends,
    and no event of the run removes or creates the directory or is a
    [tcpdump] command. *)
Theorem no_capture_without_traces E a d :
  traces a = false →
  dir_after (simpleRun E a d) = d ∧
  Forall capture_free (trace (simpleRun E a d)).
Proof.
  intros Htr. split.
  - revert d. change (keeps_dir (simpleRun E a)). unfold simpleRun. rewrite Htr.
    repeat keeps_dir_step.
    + apply keeps_dir_build.
    + apply keeps_dir_config_loopback.
    + apply keeps_dir_config_link_off.
    + apply keeps_dir_install_route.
  - revert d. change (trace_all capture_free (simpleRun E a)).
    unfold simpleRun. rewrite Htr. trace_all_body.
    + by apply trace_all_build.
    + apply config_loopback_capture_free.
    + apply config_link_capture_free.
    + apply install_route_capture_free.
Qed.

Lemma no_capture_without_traces_witness :
  dir_after (simpleRun example_env (example_args false false) NotADirectory)
    = NotADirectory ∧
  Forall capture_free
    (trace (simpleRun example_env (example_args false false) NotADirectory)).
Proof.
  apply (no_capture_without_traces example_env (example_args false false)).
  reflexivity.
Defined.

Lemma simpleRun_to_interfaces E a d nodes lnks :
  file_records E (loopbacks a) node_record = Some nodes →
  file_records E (links a) link_record = Some lnks →
  Forall (λ r, (endpoints r).1 ∈ nodes.*1 ∧ (endpoints r).2 ∈ nodes.*1) lnks →
  ∃ t0,
    simpleRun E a d = prepend t0 (interfaces_and_session E (net_of E nodes) a d) ∧
    host_cmds t0 = flat_map (loopback_cmds (ipv4 a)) nodes.
Proof.
  intros Hn Hl Hk.
  apply file_records_some in Hn as (ntxt & Hf1 & Hn).
  apply file_records_some in Hl as (ltxt & Hf2 & Hl).
  destruct (build_run E empty_topo a d _ _ _ _ Hf1 Hf2 Hn Hl Hk)
    as (topo & Hbuild & Hhosts).
  assert (topo_hosts topo ∪ engine_nodes E = net_of E nodes) as Hnet.
  { unfold net_of. rewrite Hhosts. simpl. by rewrite (right_id_L ∅ (∪)). }
  destruct (loopbacks_run (net_of E nodes) (ipv4 a) nodes d) as (t1 & Hr1 & Hc1).
  { apply Forall_forall. intros r Hr. unfold net_of.
    apply elem_of_union_l, elem_of_list_to_set. by apply list_elem_of_fmap_2. }
  rewrite <- (for_each_records node_record unpack2 (λ _, configure_loopback _ _)
               (config_loopback _ _) (config_loopback_eq _ _) unpack2_some
               ntxt nodes Hn) in Hr1.
  eexists. split.
  - unfold simpleRun.
    rewrite (bind_prepend _ _ _ _ _ _ (emit_run _ d)). cbv beta.
    rewrite (bind_prepend _ _ _ _ _ _ Hbuild). cbv beta.
    rewrite (bind_prepend _ _ _ _ _ _ (Mininet_run E topo d)). cbv beta.
    rewrite Hnet.
    rewrite (bind_prepend _ _ _ _ _ _ (emit_run _ d)). cbv beta.
    rewrite (bind_prepend _ _ _ _ _ _ (emit_run _ d)). cbv beta.
    rewrite (bind_prepend _ _ _ _ _ _ (read_lines_run _ _ _ d Hf1)). cbv beta.
    rewrite (bind_prepend _ _ _ _ _ _ Hr1). cbv beta.
    rewrite !prepend_prepend. reflexivity.
  - rewrite !host_cmds_app, Hc1.
    rewrite (topology_no_cmd _ (node_events_topology nodes)).
    rewrite (topology_no_cmd _ (link_events_topology _)).
    simpl. by rewrite ?app_nil_r.
Qed.

Lemma link_hosts_known E nodes lnks :
  Forall (λ r, (endpoints r).1 ∈ nodes.*1 ∧ (endpoints r).2 ∈ nodes.*1) lnks →
  Forall (λ r, link_host r ∈ net_of E nodes) lnks.
Proof.
  intros Hk. eapply Forall_impl; [exact Hk|].
  intros [[[[id1 id2] itf] link] lo] [H1 _].
  simpl in *. unfold net_of. by apply elem_of_union_l, elem_of_list_to_set.
Qed.

Lemma configure_interface_blocked net v4 r :
  link_host r ∈ net →
  ∃ t,
    configure_interface net true v4 r NotADirectory =
      Run t NotADirectory (Raised (FileExistsError PCAP_DIR)) ∧
    host_cmds t = interface_cmds false v4 r.
Proof.
  destruct r as [[[[id1 id2] itf] link] lo]. simpl. intros Hin.
  unfold configure_interface, reset_pcap_dir, net_cmd, net_getitem.
  rewrite (bool_decide_eq_true_2 _ Hin). eexists. split; reflexivity.
Qed.

(** X4: when captures are asked for and the path [pcaps] exists without
    being a directory, the run stops with [FileExistsError] at the first
    link record: the hosts have their loopback configuration and the first
    interface its forwarding and its address, no capture is started and
    the path is left as it is. *)
Theorem capture_path_not_a_directory E a nodes r rest :
  file_records E (loopbacks a) node_record = Some nodes →
  file_records E (links a) link_record = Some (r :: rest) →
  Forall (λ r, (endpoints r).1 ∈ nodes.*1 ∧ (endpoints r).2 ∈ nodes.*1)
    (r :: rest) →
  traces a = true →
  ∃ t,
    simpleRun E a NotADirectory =
      Run t NotADirectory (Raised (FileExistsError PCAP_DIR)) ∧
    host_cmds t = flat_map (loopback_cmds (ipv4 a)) nodes
                    ++ interface_cmds false (ipv4 a) r.
Proof.
  intros Hn Hl Hk Htr.
  destruct (simpleRun_to_interfaces E a NotADirectory nodes _ Hn Hl Hk)
    as (t0 & -> & Hc0).
  apply file_records_some in Hl as (ltxt & Hf2 & Hl).
  pose proof (link_hosts_known E nodes _ Hk) as Hhosts.
  inversion_clear Hhosts as [|?? Hr _].
  destruct (configure_interface_blocked (net_of E nodes) (ipv4 a) r Hr)
    as (t & Hstep & Hc).
  assert (interfaces_and_session E (net_of E nodes) a NotADirectory =
          Run t NotADirectory (Raised (FileExistsError PCAP_DIR))) as ->.
  { unfold interfaces_and_session.
    rewrite (bind_prepend _ _ _ _ _ _ (read_lines_run _ _ _ _ Hf2)). cbv beta.
    assert (for_each (config_link (net_of E nodes) (traces a) (ipv4 a)) tt
              (split newline ltxt) NotADirectory
            = Run t NotADirectory (Raised (FileExistsError PCAP_DIR))) as Hloop.
    { rewrite (for_each_records link_record unpack5
                 (λ _, configure_interface _ _ _) (config_link _ _ _)
                 (config_link_eq _ _ _) unpack5_some ltxt _ Hl).
      rewrite for_each_cons, Htr. by apply bind_raised_eq. }
    rewrite (bind_raised_eq _ _ _ _ _ _ Hloop). by rewrite prepend_nil. }
  exists (t0 ++ t). split; [done|]. by rewrite host_cmds_app, Hc0, Hc.
Qed.

Lemma capture_path_not_a_directory_witness :
  ∃ t,
    simpleRun example_env (example_args true false) NotADirectory =
      Run t NotADirectory (Raised (FileExistsError PCAP_DIR)) ∧
    host_cmds t
      = flat_map (loopback_cmds false) [("A", "10.0.0.1/32"); ("B", "10.0.0.2/32")]
          ++ interface_cmds false false ("A", "B", "0", "10.0.0.5/30", "10.0.0.2/32").
Proof.
  apply (capture_path_not_a_directory example_env (example_args true false)
           [("A", "10.0.0.1/32"); ("B", "10.0.0.2/32")]
           ("A", "B", "0", "10.0.0.5/30", "10.0.0.2/32")
           [("B", "A", "0", "10.0.0.6/30", "10.0.0.1/32")]).
  - vm_compute; reflexivity.
  - vm_compute; reflexivity.
  - repeat constructor; simpl; rewrite list_elem_of_In; simpl; tauto.
  - reflexivity.
Defined.

Lemma interfaces_dir_after net tr v4 lnks :
  ∀ d t d',
    Forall (λ r, link_host r ∈ net) lnks → (tr = true → d ≠ NotADirectory) →
    for_each (λ _, configure_interface net tr v4) tt lnks d = Run t d' (Returned tt) →
    d' = if tr then match lnks with [] => d | _ => Directory end else d.
Proof.
  induction lnks as [|r lnks IH]; intros d t d' Hin Hd Hrun.
  - injection Hrun as _ <-. by destruct tr.
  - inversion_clear Hin as [|?? Hr Hin'].
    destruct (configure_interface_run net tr v4 r d Hr Hd) as (t1 & Hstep & _ & _).
    assert (tr = true → (if tr then Directory else d) ≠ NotADirectory) as Hd1
      by (by destruct tr).
    destruct (interfaces_run net tr v4 lnks _ Hin' Hd1) as (t2 & d2 & Hrest & _).
    rewrite (for_each_cons_run _ _ _ _ _ _ _ _ Hstep), Hrest in Hrun.
    injection Hrun as _ <-. simpl.
    rewrite (IH _ _ _ Hin' Hd1 Hrest). destruct tr; [|done]. by destruct lnks.
Qed.

(** X6: on a run that configures its interfaces with captures asked for,
    the path [pcaps] is a directory afterwards when the link file has a
    record, whatever the path was before (absent, or a directory that is
    removed first); when the link file has no record the path is left as
    it was: the directory is not reset at all. *)
Theorem capture_dir_after_run E a d nodes lnks :
  configurable E a d nodes lnks →
  traces a = true →
  dir_after (simpleRun E a d) = match lnks with [] => d | _ => Directory end.
Proof.
  intros Hc Htr.
  - destruct Hc as [Hn Hl Hk Hd].
    destruct (simpleRun_to_interfaces E a d nodes lnks Hn Hl Hk) as (t0 & -> & _).
    apply file_records_some in Hl as (ltxt & Hf2 & Hl).
    pose proof (link_hosts_known E nodes _ Hk) as Hhosts.
    destruct (interfaces_run (net_of E nodes) (traces a) (ipv4 a) lnks d Hhosts Hd)
      as (t2 & d2 & Hr2 & _).
    pose proof (interfaces_dir_after _ _ _ _ _ _ _ Hhosts Hd Hr2) as Hd2.
    rewrite Htr in Hd2.
    rewrite <- (for_each_records link_record unpack5
                 (λ _, configure_interface _ _ _) (config_link _ _ _)
                 (config_link_eq _ _ _) unpack5_some ltxt lnks Hl) in Hr2.
    unfold interfaces_and_session.
    rewrite (bind_prepend _ _ _ _ _ _ (read_lines_run _ _ _ d Hf2)). cbv beta.
    rewrite (bind_prepend _ _ _ _ _ _ Hr2). cbv beta.
    unfold prepend. simpl. by rewrite keeps_dir_routes_and_session.
Qed.

Lemma capture_dir_after_run_witness :
  dir_after (simpleRun example_env (example_args true false) Absent) = Directory.
Proof.
  exact (capture_dir_after_run example_env (example_args true false) Absent _ _
           (example_configurable true false) eq_refl).
Defined.

(** ** The topology and the engine *)

Lemma simpleRun_topology_first E a :
  trace_phases topology_event configuration_event (simpleRun E a).
Proof.
  unfold simpleRun.
  do 2 (apply trace_phases_bind_l;
        [ repeat trace_all_step; first [done | by apply trace_all_build]
        | intros ? ]).
  apply trace_phases_all. repeat trace_all_step; try done.
  - apply config_loopback_configures.
  - apply config_link_configures.
  - unfold install_route, add_route. repeat trace_all_step; done.
Qed.

(** X7: the topology is complete before the engine is used: in every run,
    every registration of a host and every creation of a link comes before
    the creation and the start of the network and before every command to
    a host. *)
Theorem topology_before_engine E a d i j e1 e2 :
  trace (simpleRun E a d) !! i = Some e1 → ¬ configuration_event e1 →
  trace (simpleRun E a d) !! j = Some e2 → ¬ topology_event e2 →
  i < j.
Proof.
  intros Hi H1 Hj H2.
  destruct (simpleRun_topology_first E a d) as (t1 & t2 & Ht & Ht1 & Ht2).
  rewrite Ht in Hi, Hj.
  destruct (decide (j < length t1)) as [Hlt|Hge].
  - rewrite lookup_app_l in Hj by done.
    rewrite Forall_lookup in Ht1. by specialize (Ht1 _ _ Hj).
  - destruct (decide (i < length t1)) as [?|Hge']; [lia|].
    rewrite lookup_app_r in Hi by lia.
    rewrite Forall_lookup in Ht2. by specialize (Ht2 _ _ Hi).
Qed.

Lemma topology_before_engine_witness : 3 < 5.
Proof.
  apply (topology_before_engine example_env (example_args false false) Absent
           3 5 (AddLink "A" "B") NetStart).
  - vm_compute; reflexivity.
  - simpl. tauto.
  - vm_compute; reflexivity.
  - simpl. tauto.
Defined.

Lemma build_link_hosts all_nodes self seen line d self' seen' :
  outcome (build_link all_nodes (self, seen) line d) = Returned (self', seen') →
  topo_hosts self' = topo_hosts self.
Proof.
  unfold build_link. destruct (is_empty line); [by intros [= <- <-]|].
  unfold unpack5.
  destruct (split space line) as [|a [|b [|c [|c1 [|c2 [|c3 fs]]]]]]; try done.
  rewrite bind_ret_run. unfold connect.
  destruct (bool_decide ((a, b) ∈ seen) || bool_decide ((b, a) ∈ seen));
    [by intros [= <- <-]|].
  unfold getitem.
  destruct (all_nodes !! a) as [va|]; [|done]. rewrite bind_ret_run.
  destruct (all_nodes !! b) as [vb|]; [|done]. rewrite bind_ret_run.
  by intros [= <- <-].
Qed.

Lemma build_links_hosts all_nodes lines :
  ∀ self seen d self' seen',
    outcome (for_each (build_link all_nodes) (self, seen) lines d)
      = Returned (self', seen') →
    topo_hosts self' = topo_hosts self.
Proof.
  induction lines as [|line lines IH]; intros self seen d self' seen' H.
  - by injection H as <- <-.
  - rewrite for_each_cons in H.
    apply bind_returned_inv in H as ([self1 seen1] & H1 & H).
    apply build_link_hosts in H1. apply IH in H. congruence.
Qed.

(** The hosts of the topology that [build] returns have been registered. *)
Lemma build_hosts_registered E a d topo :
  outcome (build E empty_topo a d) = Returned topo →
  ∀ h, h ∈ topo_hosts topo → h ∈ hosts_registered (trace (build E empty_topo a d)).
Proof.
  intros Hout h Hh.
  destruct (build_returned E empty_topo a d topo Hout) as [[nodes Hn] _].
  apply file_records_some in Hn as (ntxt & Hf & Hn).
  rewrite (build_registers E empty_topo a d ntxt nodes Hf Hn).
  revert Hout Hh. unfold build.
  rewrite (bind_prepend _ _ _ _ _ _ (read_lines_run _ _ _ d Hf)). cbv beta.
  rewrite (bind_prepend _ _ _ _ _ _ (build_nodes_run _ _ empty_topo ∅ d Hn)).
  cbv beta. unfold prepend. simpl. intros Hout.
  apply bind_returned_inv in Hout as (ltxt & _ & Hout).
  apply bind_returned_inv in Hout as ([self' seen'] & Hloop & Hout).
  apply build_links_hosts in Hloop. injection Hout as <-.
  rewrite Hloop, nodes_topo_hosts. simpl.
  rewrite (right_id_L ∅ (∪)). by rewrite elem_of_list_to_set.
Qed.

Lemma net_cmd_within net name cmd :
  trace_all (cmd_within net) (net_cmd net name cmd).
Proof.
  intros d. rewrite net_cmd_run. case_bool_decide; simpl; by repeat constructor.
Qed.

(** Splits a computation as [trace_all_step] does, with the commands that
    [net_cmd] sends known to go to hosts of [net]. *)
Ltac cmd_within_step :=
  lazymatch goal with
  | |- trace_all _ (net_cmd _ _ _) => apply net_cmd_within
  | |- _ => trace_all_step
  end.

Lemma config_loopback_within net v4 acc line :
  trace_all (cmd_within net) (config_loopback net v4 acc line).
Proof. unfold config_loopback, configure_loopback. repeat cmd_within_step; done. Qed.

Lemma config_link_within net tr v4 acc line :
  trace_all (cmd_within net) (config_link net tr v4 acc line).
Proof.
  unfold config_link, configure_interface, reset_pcap_dir.
  repeat cmd_within_step; done.
Qed.

Lemma install_route_within net v4 acc line :
  trace_all (cmd_within net) (install_route net v4 acc line).
Proof. unfold install_route, add_route. repeat cmd_within_step; done. Qed.

Lemma simpleRun_after_build E a :
  simpleRun E a =
    (emit (Print ("USE IPV4 " +:+ py_bool (ipv4 a)));;
     topo ← build E empty_topo a;
     configure_and_session E a topo).
Proof. done. Qed.

Lemma configure_and_session_within E a topo :
  trace_all (cmd_within (topo_hosts topo ∪ engine_nodes E))
    (configure_and_session E a topo).
Proof.
  intros d. unfold configure_and_session.
  rewrite (bind_prepend _ _ _ _ _ _ (Mininet_run E topo d)). cbv beta.
  unfold prepend. cbn [trace]. apply Forall_app. split; [by repeat constructor|].
  match goal with
  | |- Forall ?P (trace (?m d)) => assert (trace_all P m) as H; [|apply H]
  end.
  repeat cmd_within_step; try done.
  - apply config_loopback_within.
  - apply config_link_within.
  - apply install_route_within.
Qed.

(** X8: commands go to known hosts only: in every run, the host of every
    command has been registered by [build] or is a node that the engine
    has of its own. *)
Theorem commands_to_known_hosts E a d host cmd :
  HostCmd host cmd ∈ trace (simpleRun E a d) →
  host ∈ hosts_registered (trace (simpleRun E a d)) ∨ host ∈ engine_nodes E.
Proof.
  rewrite simpleRun_after_build.
  rewrite (bind_prepend _ _ _ _ _ _ (emit_run _ d)). cbv beta.
  assert (Forall topology_event (trace (build E empty_topo a d))) as Htopo.
  { by apply trace_all_build. }
  rewrite Forall_forall in Htopo.
  destruct (outcome (build E empty_topo a d)) as [e|topo] eqn:Hout.
  - rewrite (bind_raised _ _ _ e Hout). unfold prepend. cbn [trace].
    intros Hin. apply elem_of_app in Hin as [Hin|Hin].
    + apply list_elem_of_singleton in Hin. discriminate Hin.
    + by apply Htopo in Hin.
  - pose proof (build_hosts_registered E a d topo Hout) as Hreg.
    rewrite (bind_returned _ _ _ topo Hout). unfold prepend. cbn [trace].
    rewrite !hosts_registered_app.
    intros Hin. apply elem_of_app in Hin as [Hin|Hin].
    { apply list_elem_of_singleton in Hin. discriminate Hin. }
    apply elem_of_app in Hin as [Hin|Hin].
    { by apply Htopo in Hin. }
    pose proof (configure_and_session_within E a topo
                  (dir_after (build E empty_topo a d))) as Hm.
    rewrite Forall_forall in Hm. apply Hm in Hin. cbn [cmd_within] in Hin.
    apply elem_of_union in Hin as [Hin|Hin]; [|by right].
    left. apply elem_of_app. right. apply elem_of_app. left. by apply Hreg.
Qed.

Lemma commands_to_known_hosts_witness :
  "B" ∈ hosts_registered
          (trace (simpleRun example_env (example_args false false) Absent))
  ∨ "B" ∈ engine_nodes example_env.
Proof.
  apply (commands_to_known_hosts example_env (example_args false false) Absent
           "B" "sysctl net.ipv6.conf.lo.forwarding=1").
  apply list_elem_of_lookup. exists 19. vm_compute. reflexivity.
Defined.

(** ** Hosts and their addresses *)

Lemma build_mac_of_name E self a : trace_all mac_of_name (build E self a).
Proof.
  unfold build. repeat trace_all_step; try done.
  - unfold build_node, register_node, addHost. repeat trace_all_step; done.
  - unfold build_link, connect, addLink. repeat trace_all_step; done.
Qed.

Lemma simpleRun_mac_of_name E a : trace_all mac_of_name (simpleRun E a).
Proof.
  unfold simpleRun. repeat trace_all_step; try done.
  - apply build_mac_of_name.
  - unfold config_loopback, configure_loopback. repeat trace_all_step; done.
  - unfold config_link, configure_interface, reset_pcap_dir.
    repeat trace_all_step; done.
  - unfold install_route, add_route. repeat trace_all_step; done.
Qed.

(** X9: the link-layer address that a host is registered with is made of
    its name alone, so in every run two registrations have the same
    link-layer address exactly when they have the same name. *)
Theorem mac_identifies_name E a d n1 ip1 mac1 n2 ip2 mac2 :
  AddHost n1 ip1 mac1 ∈ trace (simpleRun E a d) →
  AddHost n2 ip2 mac2 ∈ trace (simpleRun E a d) →
  mac1 = "00:00:00:00:00:" +:+ n1 ∧ (mac1 = mac2 ↔ n1 = n2).
Proof.
  intros H1 H2.
  pose proof (simpleRun_mac_of_name E a d) as H. rewrite Forall_forall in H.
  assert (mac1 = "00:00:00:00:00:" +:+ n1) as Hm1 by exact (H _ H1).
  assert (mac2 = "00:00:00:00:00:" +:+ n2) as Hm2 by exact (H _ H2).
  split; [done|]. rewrite Hm1, Hm2.
  split; [intros Heq; by injection Heq | by intros ->].
Qed.

Lemma mac_identifies_name_witness :
  "00:00:00:00:00:A" = "00:00:00:00:00:" +:+ "A" ∧
  ("00:00:00:00:00:A" = "00:00:00:00:00:B" ↔ "A" = "B").
Proof.
  apply (mac_identifies_name example_env (example_args false false) Absent
           "A" "10.0.0.1/32" "00:00:00:00:00:A" "B" "10.0.0.2/32" "00:00:00:00:00:B").
  - apply list_elem_of_lookup. exists 1. vm_compute. reflexivity.
  - apply list_elem_of_lookup. exists 2. vm_compute. reflexivity.
Defined.

(** ** The links, in the order of the file *)

Lemma new_links_sublist ps : ∀ seen, new_links seen ps `sublist_of` ps.
Proof.
  induction ps as [|p ps IH]; intros seen; [done|].
  rewrite new_links_cons.
  destruct (bool_decide (p ∈ seen) || bool_decide ((p.2, p.1) ∈ seen)).
  - by apply sublist_cons.
  - by apply sublist_skip.
Qed.

(** X10: when [build] completes, the links are created in the order of the
    link file and in the direction in which their records are written: the
    created links are a subsequence of the endpoint pairs of the records,
    and the first record always gets its link. *)
Theorem links_in_file_order E self kwargs d ntxt ltxt nodes lnks :
  files E !! loopbacks kwargs = Some ntxt →
  files E !! links kwargs = Some ltxt →
  records node_record ntxt = Some nodes →
  records link_record ltxt = Some lnks →
  Forall (λ r, (endpoints r).1 ∈ nodes.*1 ∧ (endpoints r).2 ∈ nodes.*1) lnks →
  links_created (trace (build E self kwargs d)) `sublist_of` endpoints <$> lnks ∧
  head (links_created (trace (build E self kwargs d))) = endpoints <$> head lnks.
Proof.
  intros Hf1 Hf2 Hn Hl Hk.
  destruct (build_run E self kwargs d _ _ _ _ Hf1 Hf2 Hn Hl Hk) as (topo & -> & _).
  cbn [trace].
  rewrite links_created_app, links_created_nodes, links_created_links. simpl.
  split; [apply new_links_sublist|].
  destruct lnks as [|r lnks]; [done|].
  rewrite fmap_cons, new_links_cons.
  rewrite !bool_decide_eq_false_2 by apply not_elem_of_empty. done.
Qed.

Lemma links_in_file_order_witness :
  links_created
    (trace (build example_env empty_topo (example_args false false) Absent))
    `sublist_of` [("A", "B"); ("B", "A")] ∧
  head (links_created
          (trace (build example_env empty_topo (example_args false false) Absent)))
    = Some ("A", "B").
Proof.
  apply (links_in_file_order example_env empty_topo (example_args false false)
           Absent example_nodes example_links
           [("A", "10.0.0.1/32"); ("B", "10.0.0.2/32")]
           [("A", "B", "0", "10.0.0.5/30", "10.0.0.2/32");
            ("B", "A", "0", "10.0.0.6/30", "10.0.0.1/32")]).
  - vm_compute; reflexivity.
  - vm_compute; reflexivity.
  - vm_compute; reflexivity.
  - vm_compute; reflexivity.
  - repeat constructor; simpl; rewrite list_elem_of_In; simpl; tauto.
Defined.

(** ** The address family and the rest of the run *)

Lemma configurable_with_ipv4 E a d nodes lnks v4 :
  configurable E a d nodes lnks → configurable E (with_ipv4 a v4) d nodes lnks.
Proof. intros [Hn Hl Hk Hd]. by constructor. Qed.

Lemma fst_flat_map {R X Y} (f : R → list (X * Y)) l :
  (flat_map f l).*1 = flat_map (λ r, (f r).*1) l.
Proof.
  induction l as [|r l IH]; [done|]. simpl. by rewrite fmap_app, IH.
Qed.

Lemma filter_flat_map {R X} (p : X → bool) (f : R → list X) l :
  List.filter p (flat_map f l) = flat_map (λ r, List.filter p (f r)) l.
Proof.
  induction l as [|r l IH]; [done|]. simpl. by rewrite List.filter_app, IH.
Qed.

Lemma flat_map_ext_eq {R X} (f g : R → list X) l :
  (∀ r, f r = g r) → flat_map f l = flat_map g l.
Proof. intros H. induction l as [|r l IH]; [done|]. simpl. by rewrite H, IH. Qed.

Lemma loopback_cmds_hosts v4 r : (loopback_cmds v4 r).*1 = replicate 6 r.1.
Proof. by destruct r. Qed.

Lemma interface_cmds_hosts tr v4 r :
  (interface_cmds tr v4 r).*1 = replicate (if tr then 5 else 4) (link_host r).
Proof. destruct r as [[[[id1 id2] itf] link] lo]. by destruct tr. Qed.

Lemma route_cmds_hosts v4 r : (route_cmds v4 r).*1 = [path_host r].
Proof. by destruct r as [[[id1 itf] link] lo]. Qed.

Lemma prefix_append p s : String.prefix p (p +:+ s) = true.
Proof.
  induction p as [|c p IH]; [by destruct s|].
  cbv [String.append]. fold String.append. rewrite prefix_cons.
  by destruct (Ascii.ascii_dec c c).
Qed.

Lemma loopback_addr_family v4 id1 lo :
  family_free (id1, loopback_addr_cmd v4 lo) = false.
Proof.
  unfold family_free, is_addr_cmd, is_addr4, is_addr6, loopback_addr_cmd.
  cbn [snd]. destruct v4; rewrite prefix_append; by rewrite ?orb_true_r.
Qed.

Lemma interface_addr_family v4 id1 link itf :
  family_free (id1, interface_addr_cmd v4 link id1 itf) = false.
Proof.
  unfold family_free, is_addr_cmd, is_addr4, is_addr6, interface_addr_cmd.
  cbn [snd]. destruct v4; rewrite prefix_append; by rewrite ?orb_true_r.
Qed.

Lemma route_family v4 id1 lo link :
  family_free (id1, route_cmd v4 lo link) = false.
Proof.
  unfold family_free, is_route_cmd, is_route4, is_route6, route_cmd.
  cbn [snd]. destruct v4; rewrite prefix_append; by rewrite ?orb_true_r.
Qed.

Lemma loopback_cmds_family_free v4 r :
  List.filter family_free (loopback_cmds v4 r)
    = (λ c, (r.1, c)) <$> global_forwarding_cmds.
Proof.
  destruct r as [id1 lo]. unfold loopback_cmds. cbn [List.filter].
  by rewrite loopback_addr_family.
Qed.

Lemma interface_cmds_family_free tr v4 r :
  List.filter family_free (interface_cmds tr v4 r)
    = List.filter family_free (interface_cmds tr true r).
Proof.
  destruct r as [[[[id1 id2] itf] link] lo]. unfold interface_cmds.
  rewrite !List.filter_app. f_equal. cbn [List.filter].
  by rewrite !interface_addr_family.
Qed.

Lemma route_cmds_family_free v4 r :
  List.filter family_free (route_cmds v4 r) = [].
Proof.
  destruct r as [[[id1 itf] link] lo]. unfold route_cmds. cbn [List.filter].
  by rewrite route_family.
Qed.

(** X11: the flag [ipv4] changes the text of the address and route commands
    and nothing else: on inputs for which the run completes, it completes
    with either value of the flag, the commands go to the same hosts in the
    same order, and the commands that are neither address assignments nor
    route installations are the same. *)
Theorem address_family_changes_text_only E a d nodes lnks pths v4 :
  configurable E a d nodes lnks →
  file_records E (paths a) path_record = Some pths →
  Forall (λ r, path_host r ∈ net_of E nodes) pths →
  outcome (simpleRun E (with_ipv4 a v4) d) = outcome (simpleRun E a d) ∧
  (host_cmds (trace (simpleRun E (with_ipv4 a v4) d))).*1
    = (host_cmds (trace (simpleRun E a d))).*1 ∧
  List.filter family_free (host_cmds (trace (simpleRun E (with_ipv4 a v4) d)))
    = List.filter family_free (host_cmds (trace (simpleRun E a d))).
Proof.
  intros Hc Hp Hin.
  destruct (simpleRun_ok E a d nodes lnks pths Hc Hp Hin) as (t & d1 & -> & Ht).
  destruct (simpleRun_ok E (with_ipv4 a v4) d nodes lnks pths
              (configurable_with_ipv4 _ _ _ _ _ v4 Hc) Hp Hin)
    as (t' & d2 & -> & Ht').
  cbn [trace outcome with_ipv4 ipv4 traces] in *. rewrite Ht, Ht'.
  split_and!; [done | |].
  - rewrite !fmap_app, !fst_flat_map. f_equal; [|f_equal].
    + apply flat_map_ext_eq. intros r. by rewrite !loopback_cmds_hosts.
    + apply flat_map_ext_eq. intros r. by rewrite !interface_cmds_hosts.
    + apply flat_map_ext_eq. intros r. by rewrite !route_cmds_hosts.
  - rewrite !List.filter_app, !filter_flat_map. f_equal; [|f_equal].
    + apply flat_map_ext_eq. intros r. by rewrite !loopback_cmds_family_free.
    + apply flat_map_ext_eq. intros r.
      by rewrite (interface_cmds_family_free _ v4),
                 (interface_cmds_family_free _ (ipv4 a)).
    + apply flat_map_ext_eq. intros r. by rewrite !route_cmds_family_free.
Qed.

Lemma address_family_changes_text_only_witness :
  outcome (simpleRun example_env (with_ipv4 (example_args true false) true) Absent)
    = outcome (simpleRun example_env (example_args true false) Absent) ∧
  (host_cmds (trace (simpleRun example_env
                       (with_ipv4 (example_args true false) true) Absent))).*1
    = (host_cmds (trace (simpleRun example_env (example_args true false) Absent))).*1 ∧
  List.filter family_free
    (host_cmds (trace (simpleRun example_env
                         (with_ipv4 (example_args true false) true) Absent)))
    = List.filter family_free
        (host_cmds (trace (simpleRun example_env (example_args true false) Absent))).
Proof.
  apply (address_family_changes_text_only example_env (example_args true false)
           Absent _ _ [("A", "0", "10.0.0.6", "10.0.0.2/32")] true
           (example_configurable true false)).
  - vm_compute; reflexivity.
  - repeat constructor.
Defined.

(** ** Empty files *)

(** X12: when the three files are there and have no line other than blank
    ones, the run completes without a host, a link or a command: the
    network is created and started empty and the session is opened,
    whatever the flags and the status of the capture directory are. *)
Theorem empty_files_run E a d :
  file_records E (loopbacks a) node_record = Some [] →
  file_records E (links a) link_record = Some [] →
  file_records E (paths a) path_record = Some [] →
  simpleRun E a d =
    Run [Print ("USE IPV4 " +:+ py_bool (ipv4 a)); MininetCreate; NetStart;
         DumpNodeConnections; StartCLI; NetStop] d (Returned tt).
Proof.
  intros Hn Hl Hp.
  apply file_records_some in Hn as (ntxt & Hf1 & Hn).
  apply file_records_some in Hl as (ltxt & Hf2 & Hl).
  apply file_records_some in Hp as (ptxt & Hf3 & Hp).
  destruct (build_run E empty_topo a d _ _ [] [] Hf1 Hf2 Hn Hl (Forall_nil_2 _))
    as (topo & Hbuild & _).
  unfold simpleRun.
  rewrite (bind_prepend _ _ _ _ _ _ (emit_run _ d)). cbv beta.
  rewrite (bind_prepend _ _ _ _ _ _ Hbuild). cbv beta.
  rewrite (bind_prepend _ _ _ _ _ _ (Mininet_run E topo d)). cbv beta.
  rewrite (bind_prepend _ _ _ _ _ _ (emit_run _ d)). cbv beta.
  rewrite (bind_prepend _ _ _ _ _ _ (emit_run _ d)). cbv beta.
  rewrite (bind_prepend _ _ _ _ _ _ (read_lines_run _ _ _ d Hf1)). cbv beta.
  rewrite (bind_prepend _ _ _ _ _ _
             (for_each_records node_record unpack2 (λ _, configure_loopback _ _)
                (config_loopback _ _) (config_loopback_eq _ _) unpack2_some
                ntxt [] Hn tt d)). cbv beta.
  rewrite (bind_prepend _ _ _ _ _ _ (read_lines_run _ _ _ d Hf2)). cbv beta.
  rewrite (bind_prepend _ _ _ _ _ _
             (for_each_records link_record unpack5 (λ _, configure_interface _ _ _)
                (config_link _ _ _) (config_link_eq _ _ _) unpack5_some
                ltxt [] Hl tt d)). cbv beta.
  rewrite (bind_prepend _ _ _ _ _ _ (read_lines_run _ _ _ d Hf3)). cbv beta.
  rewrite (bind_prepend _ _ _ _ _ _
             (for_each_records path_record unpack4 (λ _, add_route _ _)
                (install_route _ _) (install_route_eq _ _) unpack4_some
                ptxt [] Hp tt d)). cbv beta.
  reflexivity.
Qed.

Lemma empty_files_run_witness :
  simpleRun empty_env (example_args true true) NotADirectory =
    Run [Print "USE IPV4 True"; MininetCreate; NetStart; DumpNodeConnections;
         StartCLI; NetStop] NotADirectory (Returned tt).
Proof.
  apply (empty_files_run empty_env (example_args true true));
    vm_compute; reflexivity.
Defined.

(** ** Lines and fields *)

Lemma split_cons sep c s :
  split sep (String c s) =
    if Ascii.eqb c sep then "" :: split sep s
    else match split sep s with
         | [] => [String c ""]
         | w :: ws => String c w :: ws
         end.
Proof. done. Qed.

Lemma split_nonempty sep s : split sep s ≠ [].
Proof.
  destruct s as [|c s]; [done|]. rewrite split_cons.
  destruct (Ascii.eqb c sep); [done|]. by destruct (split sep s).
Qed.

Lemma join_cons_cons sep w w' ws :
  join sep (w :: w' :: ws) = w +:+ String sep (join sep (w' :: ws)).
Proof. done. Qed.

Lemma join_cons_char sep c w ws :
  join sep (String c w :: ws) = String c (join sep (w :: ws)).
Proof. by destruct ws. Qed.

Lemma join_split sep s : join sep (split sep s) = s.
Proof.
  induction s as [|c s IH]; [done|]. rewrite split_cons.
  destruct (Ascii.eqb_spec c sep) as [->|Hne].
  - pose proof (split_nonempty sep s) as Hs.
    destruct (split sep s) as [|w ws]; [done|].
    rewrite join_cons_cons. by rewrite IH.
  - pose proof (split_nonempty sep s) as Hs.
    destruct (split sep s) as [|w ws]; [done|].
    by rewrite join_cons_char, IH.
Qed.

Lemma split_fields_free sep s :
  Forall (λ w, has_char sep w = false) (split sep s).
Proof.
  induction s as [|c s IH]; [by repeat constructor|]. rewrite split_cons.
  destruct (Ascii.eqb c sep) eqn:Hc; [by constructor|].
  destruct (split sep s) as [|w ws]; [repeat constructor; simpl; by rewrite Hc|].
  inversion_clear IH as [|?? Hw Hws]. constructor; [|done].
  simpl. by rewrite Hc.
Qed.

Lemma split_length sep s : length (split sep s) = S (count_char sep s).
Proof.
  induction s as [|c s IH]; [done|]. rewrite split_cons. simpl.
  destruct (Ascii.eqb c sep); simpl; [by rewrite IH|].
  pose proof (split_nonempty sep s) as Hs.
  destruct (split sep s) as [|w ws]; [done|]. by rewrite <- IH.
Qed.

(** X13: what [split] makes of a text, for the lines of a file and for the
    fields of a line: joining the pieces with the separator gives the text
    back, no piece holds the separator, and there is one piece more than
    there are separators in the text, so that a text without separator is
    one piece and the empty text is one empty piece. *)
Theorem split_pieces sep s :
  join sep (split sep s) = s ∧
  Forall (λ w, has_char sep w = false) (split sep s) ∧
  length (split sep s) = S (count_char sep s).
Proof.
  split_and!; [apply join_split | apply split_fields_free | apply split_length].
Qed.

Lemma split_join sep ws :
  ws ≠ [] → Forall (λ w, has_char sep w = false) ws →
  split sep (join sep ws) = ws.
Proof.
  induction ws as [|w ws IH]; [done|]. intros _ Hall.
  inversion_clear Hall as [|?? Hw Hws].
  induction w as [|c w IHw].
  - destruct ws as [|w' ws]; [done|].
    rewrite join_cons_cons. cbv [String.append]. rewrite split_cons.
    rewrite Ascii.eqb_refl. by rewrite IH.
  - simpl in Hw. apply orb_false_iff in Hw as [Hc Hw].
    rewrite join_cons_char, split_cons, Hc. by rewrite (IHw Hw).
Qed.

(** X16: a line written in the format of its file is read back as it is:
    fields without a space, joined by single spaces, are unpacked as the
    same fields, for the two fields of a node line, the four of a path
    line and the five of a link line. *)
Theorem records_read_back a b c d e :
  Forall (λ w, has_char space w = false) [a; b; c; d; e] →
  node_record (join space [a; b]) = Some (a, b) ∧
  path_record (join space [a; b; c; d]) = Some (a, b, c, d) ∧
  link_record (join space [a; b; c; d; e]) = Some (a, b, c, d, e).
Proof.
  intros Hall. unfold node_record, path_record, link_record.
  inversion_clear Hall as [|?? Ha H1]. inversion_clear H1 as [|?? Hb H2].
  inversion_clear H2 as [|?? Hc H3]. inversion_clear H3 as [|?? Hd H4].
  inversion_clear H4 as [|?? He _].
  rewrite !split_join; try done; by repeat constructor.
Qed.

Lemma records_read_back_witness :
  node_record (join space ["A"; "10.0.0.1/32"]) = Some ("A", "10.0.0.1/32") ∧
  path_record (join space ["A"; "10.0.0.1/32"; "0"; "10.0.0.6"])
    = Some ("A", "10.0.0.1/32", "0", "10.0.0.6") ∧
  link_record (join space ["A"; "10.0.0.1/32"; "0"; "10.0.0.6"; "10.0.0.2/32"])
    = Some ("A", "10.0.0.1/32", "0", "10.0.0.6", "10.0.0.2/32").
Proof.
  apply (records_read_back "A" "10.0.0.1/32" "0" "10.0.0.6" "10.0.0.2/32").
  repeat constructor.
Defined.

Lemma split_keeps_free c sep s :
  has_char c s = false → Forall (λ w, has_char c w = false) (split sep s).
Proof.
  induction s as [|c' s IH]; intros Hs; [by repeat constructor|].
  simpl in Hs. apply orb_false_iff in Hs as [Hc Hs]. rewrite split_cons.
  specialize (IH Hs). destruct (Ascii.eqb c' sep); [by constructor|].
  destruct (split sep s) as [|w ws]; [repeat constructor; simpl; by rewrite Hc|].
  inversion_clear IH as [|?? Hw Hws]. constructor; [|done].
  simpl. by rewrite Hc.
Qed.

Lemma node_record_tokens line r :
  has_char newline line = false → node_record line = Some r →
  (has_char space r.1 = false ∧ has_char newline r.1 = false) ∧
  (has_char space r.2 = false ∧ has_char newline r.2 = false).
Proof.
  intros Hline. unfold node_record.
  pose proof (split_fields_free space line) as Hsp.
  pose proof (split_keeps_free newline space line Hline) as Hnl.
  destruct (split space line) as [|a [|b [|c fs]]]; try done.
  intros [= <-]. simpl.
  inversion_clear Hsp as [|?? Ha Hsp']. inversion_clear Hsp' as [|?? Hb _].
  inversion_clear Hnl as [|?? Ha' Hnl']. inversion_clear Hnl' as [|?? Hb' _].
  done.
Qed.

(** X15: the names of the hosts are single words: for a well-formed node
    file, no host is registered under a name that holds a space or a
    newline, so that a name stands as one word in the text of a command. *)
Theorem host_names_are_words E self kwargs d content nodes :
  files E !! loopbacks kwargs = Some content →
  records node_record content = Some nodes →
  Forall (λ h, has_char space h = false ∧ has_char newline h = false)
    (hosts_registered (trace (build E self kwargs d))).
Proof.
  intros Hf Hn. rewrite (build_registers E self kwargs d content nodes Hf Hn).
  unfold records in Hn. apply mapM_Some in Hn.
  assert (Forall (λ l, has_char newline l = false) (nonblank_lines content)) as Hl.
  { unfold nonblank_lines. apply Forall_forall. intros l Hin.
    apply list_elem_of_filter in Hin as [_ Hin].
    pose proof (split_fields_free newline content) as H.
    rewrite Forall_forall in H. by apply H. }
  induction Hn as [|line r ls rs Hr _ IH]; [constructor|].
  inversion_clear Hl as [|?? Hline Hl']. rewrite fmap_cons. constructor; [|auto].
  by destruct (node_record_tokens line r Hline Hr).
Qed.

Lemma host_names_are_words_witness :
  Forall (λ h, has_char space h = false ∧ has_char newline h = false)
    (hosts_registered
       (trace (build example_env empty_topo (example_args false false) Absent))).
Proof.
  apply (host_names_are_words example_env empty_topo (example_args false false)
           Absent example_nodes [("A", "10.0.0.1/32"); ("B", "10.0.0.2/32")]);
    vm_compute; reflexivity.
Defined.

Lemma split_spaces n : split space (spaces n) = replicate (S n) "".
Proof. induction n as [|n IH]; [done|]. simpl. by rewrite IH. Qed.

(** X17: a line of spaces is not a blank line for the loops: it is not
    skipped, and a line of [n] spaces is unpacked as [n + 1] empty fields.
    So a single space in the node file registers a host with an empty name,
    and any other number of spaces there stops the run with [ValueError]. *)
Theorem line_of_spaces_not_skipped n st d :
  0 < n →
  is_empty (spaces n) = false ∧
  split space (spaces n) = replicate (S n) "" ∧
  build_node st (spaces n) d =
    if decide (n = 1)
    then register_node st ("", "") d
    else Run [] d (Raised (ValueError 2 (S n))).
Proof.
  intros Hn. destruct n as [|n]; [lia|]. split_and!; [done | apply split_spaces |].
  unfold build_node. change (is_empty (spaces (S n))) with false. cbv iota.
  rewrite split_spaces. destruct n as [|n].
  - rewrite decide_True by done. cbn [replicate]. apply bind_ret_run.
  - rewrite decide_False by lia. cbn [replicate]. unfold unpack2.
    rewrite bind_raised_eq with (t := []) (d' := d)
      (e := ValueError 2 (S (S (S (length (replicate n ""))))));
      [|done].
    by rewrite length_replicate.
Qed.

Lemma line_of_spaces_not_skipped_witness :
  is_empty " " = false ∧
  split space " " = [""; ""] ∧
  build_node (empty_topo, ∅) " " Absent =
    Run [AddHost "" "" "00:00:00:00:00:"] Absent
        (Returned (MkTopo ({[""]} ∪ ∅) [], <["" := ""]> ∅)).
Proof.
  apply (line_of_spaces_not_skipped 1 (empty_topo, ∅) Absent). lia.
Defined.

(** ** Captures and the rest of the run *)

Lemma configurable_without_traces E a d nodes lnks :
  configurable E a d nodes lnks → configurable E (with_traces a false) d nodes lnks.
Proof. intros [Hn Hl Hk Hd]. by constructor. Qed.

Lemma capture_cmd_starts id1 itf : starts_capture (capture_cmd id1 itf) = true.
Proof.
  change (String.prefix "tcpdump "
            ("tcpdump " +:+ "-i " +:+ eth id1 itf +:+ " -w "
               +:+ pcap_file id1 itf +:+ " &") = true).
  apply prefix_append.
Qed.

Lemma loopback_cmds_not_capture v4 r :
  List.filter not_capture (loopback_cmds v4 r) = loopback_cmds v4 r.
Proof. destruct r as [id1 lo]. by destruct v4. Qed.

Lemma interface_cmds_not_capture tr v4 r :
  List.filter not_capture (interface_cmds tr v4 r) = interface_cmds false v4 r.
Proof.
  destruct r as [[[[id1 id2] itf] link] lo]. unfold interface_cmds.
  rewrite List.filter_app. f_equal; [by destruct v4|].
  destruct tr; [|done]. cbn [List.filter]. unfold not_capture. cbn [snd].
  by rewrite capture_cmd_starts.
Qed.

Lemma route_cmds_not_capture v4 r :
  List.filter not_capture (route_cmds v4 r) = route_cmds v4 r.
Proof. destruct r as [[[id1 itf] link] lo]. by destruct v4. Qed.

Lemma flat_map_filter_id {R X} (p : X → bool) (f g : R → list X) l :
  (∀ r, List.filter p (f r) = g r) →
  List.filter p (flat_map f l) = flat_map g l.
Proof. intros H. rewrite filter_flat_map. by apply flat_map_ext_eq. Qed.

(** X18: asking for captures adds the commands that start them and changes
    no other command: on inputs for which the run with captures completes,
    the run without captures completes too and sends the same commands in
    the same order, the [tcpdump] commands left out. *)
Theorem captures_add_commands_only E a d nodes lnks pths :
  configurable E a d nodes lnks →
  file_records E (paths a) path_record = Some pths →
  Forall (λ r, path_host r ∈ net_of E nodes) pths →
  outcome (simpleRun E (with_traces a false) d) = Returned tt ∧
  host_cmds (trace (simpleRun E (with_traces a false) d))
    = List.filter not_capture (host_cmds (trace (simpleRun E a d))).
Proof.
  intros Hc Hp Hin.
  destruct (simpleRun_ok E a d nodes lnks pths Hc Hp Hin) as (t & d1 & -> & Ht).
  destruct (simpleRun_ok E (with_traces a false) d nodes lnks pths
              (configurable_without_traces _ _ _ _ _ Hc) Hp Hin)
    as (t' & d2 & -> & Ht').
  cbn [trace outcome with_traces ipv4 traces] in *. rewrite Ht, Ht'.
  split; [done|]. rewrite !List.filter_app. f_equal; [|f_equal]; symmetry.
  - apply flat_map_filter_id, loopback_cmds_not_capture.
  - apply flat_map_filter_id, interface_cmds_not_capture.
  - apply flat_map_filter_id, route_cmds_not_capture.
Qed.

Lemma captures_add_commands_only_witness :
  outcome (simpleRun example_env (with_traces (example_args true false) false) Absent)
    = Returned tt ∧
  host_cmds (trace (simpleRun example_env
                      (with_traces (example_args true false) false) Absent))
    = List.filter not_capture
        (host_cmds (trace (simpleRun example_env (example_args true false) Absent))).
Proof.
  apply (captures_add_commands_only example_env (example_args true false)
           Absent _ _ [("A", "0", "10.0.0.6", "10.0.0.2/32")]
           (example_configurable true false)).
  - vm_compute; reflexivity.
  - repeat constructor.
Defined.
